(** * City-planner: viewport feature sync, draw mirror, save, import/export,
      mock analysis and scenarios

    A shallow embedding of the two versions of [App.jsx] of the repository:

    - the backend-synchronised map page (module [SyncApp]):
      [bboxFromMap], [syncPreview], [fetchFeaturesForView], [saveToBackend];
    - the scenario planner page (module [PlannerApp]):
      the [draw.create]/[draw.update]/[draw.delete] handlers, [handleExport],
      [handleImport], [analyzeNow], [createNewScenario], [switchScenario],
      [clearMap], [handleToolClick], [toggleLayer];
    - [debounce], which paces the viewport sync (module [Debounce]).

    JavaScript objects that the code shares by reference (the parsed response
    handed to [setData] and mutated afterwards) live in an explicit object
    store.  Exceptions and React state are threaded through a small
    state-and-exception monad.  Whatever the page receives from outside
    (HTTP outcomes, the clock, the random generator, the prompt dialog, the
    chosen file) is an explicit argument; whatever it sends outside (HTTP
    requests, console output, alerts, timers, downloads) is appended to a
    trace.  A handler is run to its end with the outcomes of its awaits
    supplied: what other handlers do while it is suspended is not part of
    its run. *)

From Stdlib Require Import Ascii.
From stdpp Require Import strings list pretty.

Local Open Scope string_scope.
Local Set Warnings "-register-all".

(** ** JavaScript values *)

(** The value of a feature's [id] member: absent ([undefined]), [null],
    a string or a number. *)
Inductive JsId :=
| IdUndefined
| IdNull
| IdStr (s : string)
| IdNum (n : Z).

Global Instance JsId_eq_dec : EqDecision JsId.
Proof. solve_decision. Defined.

(** [x === undefined || x === null] *)
Definition is_nullish (i : JsId) : bool :=
  match i with
  | IdUndefined | IdNull => true
  | _ => false
  end.

(** JavaScript truthiness of an id: [undefined], [null], the empty string
    and [0] are falsy. *)
Definition truthy (i : JsId) : bool :=
  match i with
  | IdUndefined | IdNull => false
  | IdStr s => negb (bool_decide (s = EmptyString))
  | IdNum n => negb (bool_decide (n = 0%Z))
  end.

(** JSON payloads the page never inspects (coordinates, property bags).
    Numbers keep their literal text. *)
Inductive Json :=
| JNull
| JBool (b : bool)
| JNum (literal : string)
| JStr (s : string)
| JArr (items : list Json)
| JObj (members : list (string * Json)).

Record Geometry := {
  geom_type : string;
  coordinates : Json
}.

(** A GeoJSON feature: [{ id, type: 'Feature', geometry, properties }].
    [geometry] may be [null]. *)
Record Feature := {
  feat_id : JsId;
  feat_geometry : option Geometry;
  feat_properties : Json
}.

Definition with_id (i : JsId) (f : Feature) : Feature :=
  {| feat_id := i;
     feat_geometry := feat_geometry f;
     feat_properties := feat_properties f |}.

(** A JSON object read as a collection: its [type] member and its
    [features] member, [None] when the member is missing.  A [features]
    member that is there is an array of feature objects: other values are
    not represented. *)
Record Obj := {
  obj_type : option string;
  obj_features : option (list Feature)
}.

(** [{ type: 'FeatureCollection', features: fs }] *)
Definition FeatureCollection (fs : list Feature) : Obj :=
  {| obj_type := Some "FeatureCollection"; obj_features := Some fs |}.

(** A parsed JSON document: [null] or an object. *)
Inductive JsonValue :=
| JVNull
| JVObj (o : Obj).

(** What [JSON.parse] / [res.json()] gives. *)
Inductive JsonOutcome :=
| JsonSyntaxError
| JsonParsed (v : JsonValue).

Inductive JsError :=
| Error (msg : string)          (* new Error(msg) *)
| TypeError (msg : string)
| SyntaxError
| NetworkError.

(** What leaves the page. *)
Inductive Effect :=
| EFetch (url : string)
| EPost (url : string) (body : Obj)
| EConsoleError (label : string) (e : JsError)
| EAlert (msg : string)
| ETimeout (ms : N)
| EDownload (filename : string) (content : Obj).

(** The outside world: the clock, the random generator and the drawing
    widget's own id generator, each indexed by the number of calls made so
    far. [random_suffix k] is the value of
    [Math.floor(Math.random()*10000)] at the k-th draw. *)
Record Env := {
  Date_now : nat → N;
  random_suffix : nat → N;
  generateID : nat → string
}.

(** ** State and exception monad *)

Inductive Res (A : Type) :=
| Ok (a : A)
| Throw (e : JsError).
Arguments Ok {A} a.
Arguments Throw {A} e.

Definition M (St A : Type) : Type := St → Res A * St.

Definition ret {St A} (a : A) : M St A := λ s, (Ok a, s).

Definition bind {St A B} (m : M St A) (k : A → M St B) : M St B :=
  λ s, match m s with
       | (Ok a, s') => k a s'
       | (Throw e, s') => (Throw e, s')
       end.

Definition throw {St A} (e : JsError) : M St A := λ s, (Throw e, s).

(** [try { body } catch (err) { handler(err) }]: the state reached when the
    exception was thrown is kept. *)
Definition try_catch {St A} (body : M St A) (handler : JsError → M St A) : M St A :=
  λ s, match body s with
       | (Ok a, s') => (Ok a, s')
       | (Throw e, s') => handler e s'
       end.

Definition gets {St A} (f : St → A) : M St A := λ s, (Ok (f s), s).
Definition modify {St} (f : St → St) : M St unit := λ s, (Ok tt, f s).
Definition exec {St A} (m : M St A) (s : St) : St := snd (m s).

Declare Scope js_scope.
Delimit Scope js_scope with js.
Notation "x <- c ;; k" := (bind c (λ x, k))
  (at level 100, c at next level, right associativity) : js_scope.
Notation "c ;; k" := (bind c (λ _, k))
  (at level 100, right associativity) : js_scope.
Local Open Scope js_scope.

(** [xs.forEach((x, i) => body)] *)
Fixpoint forEach {St A} (body : nat → A → M St unit) (i : nat) (xs : list A) : M St unit :=
  match xs with
  | [] => ret tt
  | x :: rest => body i x ;; forEach body (S i) rest
  end.

(** ** The drawing widget (MapboxDraw)

    The widget is an external library.  Its operations follow its documented
    interface: [getAll] returns the features held, [delete] removes the
    feature with the given id, [deleteAll] removes everything, and [add]
    - gives the feature an id of the widget's own when it has none
      ([feature.id || generateID()]),
    - throws on a [null] geometry or a geometry type it does not draw,
    - updates the feature already held under the same id instead of adding a
      second one.

    The model keeps the features as a list in the order of insertion and
    compares ids as values.  It is exact for the features the statements
    below call plain, under ids that are their own keys ([plain],
    [own_keys]): a single geometry with well-formed coordinates, an object
    for properties, ids whose property names are pairwise distinct and no
    integer key.  Outside of that the widget itself goes further than the
    model: it files its features under the property name of the id (so the
    ids [1] and ["1"] meet), lists them as [Object.keys] does (array indices
    first, in numeric order), stores [{}] for properties that are missing
    or [null], generates ids for the parts of a multi-geometry, and its
    polygon and multi-geometry constructors throw on coordinates that are
    no arrays. *)
Module Draw.

Record Store := {
  features : list Feature;
  generated : nat              (* calls of generateID so far *)
}.

Definition empty : Store := {| features := []; generated := 0 |}.

Definition supported_types : list string :=
  ["Point"; "LineString"; "Polygon";
   "MultiPoint"; "MultiLineString"; "MultiPolygon"].

Definition supported (f : Feature) : bool :=
  match feat_geometry f with
  | None => false
  | Some g => bool_decide (geom_type g ∈ supported_types)
  end.

Definition getAll (st : Store) : list Feature := features st.

Definition delete (i : JsId) (st : Store) : Store :=
  {| features := filter (λ f, feat_id f ≠ i) (features st);
     generated := generated st |}.

Definition deleteAll (st : Store) : Store :=
  {| features := []; generated := generated st |}.

Definition has_id (i : JsId) (fs : list Feature) : bool :=
  bool_decide (i ∈ feat_id <$> fs).

(** replace the feature held under [feat_id f], keeping its position *)
Definition update (f : Feature) (fs : list Feature) : list Feature :=
  (λ g, if decide (feat_id g = feat_id f) then f else g) <$> fs.

Definition upsert (f : Feature) (fs : list Feature) : list Feature :=
  if has_id (feat_id f) fs then update f fs else fs ++ [f].

(** [feature.id = feature.id || generateID()], [n] ids generated so far *)
Definition key (E : Env) (n : nat) (f : Feature) : Feature :=
  if truthy (feat_id f) then f else with_id (IdStr (generateID E n)) f.

Definition generated_after (n : nat) (f : Feature) : nat :=
  if truthy (feat_id f) then n else S n.

Definition add (E : Env) (f : Feature) (st : Store) : Store + JsError :=
  let f' := key E (generated st) f in
  match feat_geometry f' with
  | None => inr (Error "Invalid geometry: null")
  | Some g =>
      if bool_decide (geom_type g ∈ supported_types)
      then inl {| features := upsert f' (features st);
                  generated := generated_after (generated st) f |}
      else inr (Error ("Invalid geometry type: " +:+ geom_type g))
  end.

End Draw.

(** ** The backend-synchronised page *)
Module SyncApp.

Definition BACKEND_BASE : string := "http://localhost:8000".

(** Objects built by [res.json()] or [draw.getAll()] live in a store and
    are named by their position in it. *)
Abbreviation loc := nat.

(** A JavaScript value that is [null] or a reference to a stored object. *)
Inductive Ref :=
| RefNull
| RefObj (l : loc).

(** The four numbers of [map.getBounds()], as JavaScript prints them. *)
Record Bounds := {
  west : string;
  south : string;
  east : string;
  north : string
}.

(** The map: its camera and the data of its "features" source
    ([None] until [addSource] has run). *)
Record MapObj := {
  bounds : Bounds;
  source : option Ref
}.

Record State := {
  status : string;
  mapRef : option MapObj;
  drawRef : option Draw.Store;
  heap : list Obj;
  clock : nat;                 (* synthesized ids drawn so far *)
  trace : list Effect
}.

Definition set_status (v : string) (s : State) : State :=
  {| status := v; mapRef := mapRef s; drawRef := drawRef s;
     heap := heap s; clock := clock s; trace := trace s |}.
Definition set_mapRef (v : option MapObj) (s : State) : State :=
  {| status := status s; mapRef := v; drawRef := drawRef s;
     heap := heap s; clock := clock s; trace := trace s |}.
Definition set_drawRef (v : option Draw.Store) (s : State) : State :=
  {| status := status s; mapRef := mapRef s; drawRef := v;
     heap := heap s; clock := clock s; trace := trace s |}.
Definition set_heap (v : list Obj) (s : State) : State :=
  {| status := status s; mapRef := mapRef s; drawRef := drawRef s;
     heap := v; clock := clock s; trace := trace s |}.
Definition set_clock (v : nat) (s : State) : State :=
  {| status := status s; mapRef := mapRef s; drawRef := drawRef s;
     heap := heap s; clock := v; trace := trace s |}.
Definition set_trace (v : list Effect) (s : State) : State :=
  {| status := status s; mapRef := mapRef s; drawRef := drawRef s;
     heap := heap s; clock := clock s; trace := v |}.

(** *** Observations *)

Definition deref (h : list Obj) (r : Ref) : option JsonValue :=
  match r with
  | RefNull => Some JVNull
  | RefObj l => JVObj <$> h !! l
  end.

(** The data of the rendered "features" source. *)
Definition rendered (s : State) : option JsonValue :=
  match mapRef s with
  | Some m => match source m with
              | Some r => deref (heap s) r
              | None => None
              end
  | None => None
  end.

(** The feature set of the drawing widget. *)
Definition editable (s : State) : list Feature :=
  match drawRef s with
  | Some d => Draw.getAll d
  | None => []
  end.

(** *** Primitive steps *)

Definition setStatus (msg : string) : M State unit := modify (set_status msg).

Definition emit (e : Effect) : M State unit :=
  modify (λ s, set_trace (trace s ++ [e]) s).

Definition console_error (label : string) (e : JsError) : M State unit :=
  emit (EConsoleError label e).

Definition alert (msg : string) : M State unit := emit (EAlert msg).

Definition alloc (o : Obj) : M State Ref :=
  λ s, (Ok (RefObj (length (heap s))), set_heap (heap s ++ [o]) s).

(** What a request resolves to: the promise rejects, or a response with a
    status and a body arrives. *)
Inductive FetchOutcome :=
| FetchRejected
| FetchResponse (http_status : Z) (body : JsonOutcome).

(** [res.ok] *)
Definition ok (http_status : Z) : bool :=
  bool_decide (200 ≤ http_status ≤ 299)%Z.

Definition await (o : FetchOutcome) : M State (Z * JsonOutcome) :=
  match o with
  | FetchRejected => throw NetworkError
  | FetchResponse st b => ret (st, b)
  end.

(** [await res.json()] *)
Definition res_json (b : JsonOutcome) : M State Ref :=
  match b with
  | JsonSyntaxError => throw SyntaxError
  | JsonParsed JVNull => ret RefNull
  | JsonParsed (JVObj o) => alloc o
  end.

Definition bboxFromMap (map : option MapObj) : M State string :=
  match map with
  | None => throw (TypeError "Cannot read properties of null (reading 'getBounds')")
  | Some m =>
      let b := bounds m in
      ret (west b +:+ "," +:+ south b +:+ "," +:+ east b +:+ "," +:+ north b)
  end.

(** [if (map.getSource("features")) map.getSource("features").setData(d)] *)
Definition setData (d : Ref) : M State unit :=
  modify (λ s,
    match mapRef s with
    | Some m =>
        match source m with
        | Some _ => set_mapRef (Some {| bounds := bounds m; source := Some d |}) s
        | None => s
        end
    | None => s
    end).

(** [fc.features] *)
Definition get_features (fc : Ref) : M State (option (list Feature)) :=
  match fc with
  | RefNull => throw (TypeError "Cannot read properties of null (reading 'features')")
  | RefObj l =>
      h <- gets heap ;;
      match h !! l with
      | Some o => ret (obj_features o)
      | None => throw (TypeError "no such object")
      end
  end.

(** [fc.features.length] *)
Definition features_length (fc : Ref) : M State nat :=
  fs <- get_features fc ;;
  match fs with
  | Some l => ret (length l)
  | None => throw (TypeError "Cannot read properties of undefined (reading 'length')")
  end.

(** [fc.features[i] = f] seen through every reference to [fc] *)
Definition store_feature (i : nat) (f : Feature) (o : Obj) : Obj :=
  {| obj_type := obj_type o;
     obj_features := (λ fs, <[i := f]> fs) <$> obj_features o |}.

Definition set_feature (l : loc) (i : nat) (f : Feature) : M State unit :=
  modify (λ s,
    match heap s !! l with
    | Some o => set_heap (<[l := store_feature i f o]> (heap s)) s
    | None => s
    end).

Definition draw_getAll : M State (list Feature) := gets editable.

Definition draw_delete (i : JsId) : M State unit :=
  modify (λ s, set_drawRef (Draw.delete i <$> drawRef s) s).

Definition draw_add (E : Env) (f : Feature) : M State unit :=
  λ s, match drawRef s with
       | Some d =>
           match Draw.add E f d with
           | inl d' => (Ok tt, set_drawRef (Some d') s)
           | inr e => (Throw e, s)
           end
       | None => (Throw (TypeError "Cannot read properties of null (reading 'add')"), s)
       end.

(** ['f_' + Date.now() + '_' + Math.floor(Math.random()*10000)] at the
    k-th draw *)
Definition synth_id (E : Env) (k : nat) : JsId :=
  IdStr ("f_" +:+ pretty (Date_now E k) +:+ "_" +:+ pretty (random_suffix E k)).

(** [if (f.id === undefined || f.id === null) f.id = ...]; the feature is
    element [i] of the stored object [l]. *)
Definition assign_id (E : Env) (l : loc) (i : nat) (f : Feature) : M State Feature :=
  if is_nullish (feat_id f) then
    k <- gets clock ;;
    modify (set_clock (S k)) ;;
    let f' := with_id (synth_id E k) f in
    set_feature l i f' ;;
    ret f'
  else ret f.

(** [fc.features.forEach(f => { ...; try { draw.add(f); } catch (e) {} })] *)
Definition add_each (E : Env) (l : loc) : nat → list Feature → M State unit :=
  forEach (λ i f,
    f' <- assign_id E l i f ;;
    try_catch (draw_add E f') (λ _, ret tt)).

(** [existing.features.forEach(f => { try { draw.delete(f.id); } catch (e) {} })] *)
Definition delete_existing : list Feature → M State unit :=
  forEach (λ _ f, try_catch (draw_delete (feat_id f)) (λ _, ret tt)) 0.

(** *** fetchFeaturesForView *)

Definition features_url (bbox : string) : string :=
  BACKEND_BASE +:+ "/api/features?bbox=" +:+ bbox.

Definition fetchFeaturesForView (E : Env) (o : FetchOutcome) : M State unit :=
  setStatus "Loading features for viewport..." ;;
  try_catch
    (map <- gets mapRef ;;
     bbox <- bboxFromMap map ;;
     emit (EFetch (features_url bbox)) ;;
     res <- await o ;;
     (if negb (ok res.1) then throw (Error ("HTTP " +:+ pretty res.1)) else ret tt) ;;
     fc <- res_json res.2 ;;
     setData fc ;;
     draw <- gets drawRef ;;
     match draw with
     | Some _ =>
         existing <- draw_getAll ;;
         delete_existing existing ;;
         fs <- get_features fc ;;
         match fs, fc with
         | Some (f :: rest), RefObj l => add_each E l 0 (f :: rest)
         | _, _ => ret tt
         end
     | None => ret tt
     end ;;
     n <- features_length fc ;;
     setStatus ("Loaded " +:+ pretty n +:+ " features"))
    (λ err,
       console_error "fetchFeaturesForView error:" err ;;
       setStatus "Failed to load viewport features").

(** *** saveToBackend *)

Definition save_url : string := BACKEND_BASE +:+ "/api/save".

Definition saveToBackend (E : Env) (po fo : FetchOutcome) : M State unit :=
  draw <- gets drawRef ;;
  match draw with
  | None => alert "Draw not ready"
  | Some d =>
      let data := FeatureCollection (Draw.getAll d) in
      setStatus "Saving to backend..." ;;
      try_catch
        (emit (EPost save_url data) ;;
         res <- await po ;;
         (if negb (ok res.1) then throw (Error ("HTTP " +:+ pretty res.1)) else ret tt) ;;
         setStatus "Saved to backend" ;;
         fetchFeaturesForView E fo)
        (λ err,
           console_error "Save failed:" err ;;
           setStatus "Save failed" ;;
           alert "Save failed — check console")
  end.

(** *** syncPreview, the handler of draw.create, draw.update, draw.delete *)

Definition syncPreview : M State unit :=
  draw <- gets drawRef ;;
  match draw with
  | Some d =>
      data <- alloc (FeatureCollection (Draw.getAll d)) ;;
      setData data
  | None => ret tt
  end.

(** *** The load handler *)

Definition addSource : M State unit :=
  m <- gets mapRef ;;
  match m with
  | Some mo =>
      match source mo with
      | None =>
          d <- alloc (FeatureCollection []) ;;
          modify (set_mapRef (Some {| bounds := bounds mo; source := Some d |}))
      | Some _ => ret tt
      end
  | None => ret tt
  end.

Definition onLoad (E : Env) (o : FetchOutcome) : M State unit :=
  addSource ;; fetchFeaturesForView E o.

(** The page right after mounting: the widget exists and is empty, the
    map exists, its source does not yet. *)
Definition mounted (b : Bounds) : State :=
  {| status := "Ready";
     mapRef := Some {| bounds := b; source := None |};
     drawRef := Some Draw.empty;
     heap := [];
     clock := 0;
     trace := [] |}.

End SyncApp.

(** ** The scenario planner page *)
Module PlannerApp.

Record Layer := {
  visible : bool;
  name : string;
  color : string
}.

Record Scores := {
  environmental : Z;
  wellbeing : Z;
  economic : Z;
  hazard : Z
}.

Record Recommendation := {
  rec_type : string;
  rec_text : string;
  rec_priority : string;
  rec_icon : string
}.

Record AnalysisData := {
  scores : Scores;
  recommendations : list Recommendation
}.

Definition mockAnalysisData : AnalysisData :=
  {| scores := {| environmental := 72; wellbeing := 68; economic := 61; hazard := 25 |};
     recommendations :=
       [ {| rec_type := "success"; rec_text := "Good green space distribution";
            rec_priority := "low"; rec_icon := "🌿" |};
         {| rec_type := "warning"; rec_text := "Consider flood drainage in northern zone";
            rec_priority := "medium"; rec_icon := "💧" |};
         {| rec_type := "error"; rec_text := "High heat island effect in commercial area";
            rec_priority := "high"; rec_icon := "🌡️" |} ] |}.

Record State := {
  status : string;
  scenarios : list string;
  currentScenario : string;
  analysisData : option AnalysisData;
  isAnalyzing : bool;
  activeTool : string;
  layers : list (string * Layer);
  drawRef : option Draw.Store;
  trace : list Effect
}.

Definition set_status (v : string) (s : State) : State :=
  {| status := v; scenarios := scenarios s; currentScenario := currentScenario s;
     analysisData := analysisData s; isAnalyzing := isAnalyzing s;
     activeTool := activeTool s; layers := layers s;
     drawRef := drawRef s; trace := trace s |}.
Definition set_scenarios (v : list string) (s : State) : State :=
  {| status := status s; scenarios := v; currentScenario := currentScenario s;
     analysisData := analysisData s; isAnalyzing := isAnalyzing s;
     activeTool := activeTool s; layers := layers s;
     drawRef := drawRef s; trace := trace s |}.
Definition set_currentScenario (v : string) (s : State) : State :=
  {| status := status s; scenarios := scenarios s; currentScenario := v;
     analysisData := analysisData s; isAnalyzing := isAnalyzing s;
     activeTool := activeTool s; layers := layers s;
     drawRef := drawRef s; trace := trace s |}.
Definition set_analysisData (v : option AnalysisData) (s : State) : State :=
  {| status := status s; scenarios := scenarios s; currentScenario := currentScenario s;
     analysisData := v; isAnalyzing := isAnalyzing s;
     activeTool := activeTool s; layers := layers s;
     drawRef := drawRef s; trace := trace s |}.
Definition set_isAnalyzing (v : bool) (s : State) : State :=
  {| status := status s; scenarios := scenarios s; currentScenario := currentScenario s;
     analysisData := analysisData s; isAnalyzing := v;
     activeTool := activeTool s; layers := layers s;
     drawRef := drawRef s; trace := trace s |}.
Definition set_drawRef (v : option Draw.Store) (s : State) : State :=
  {| status := status s; scenarios := scenarios s; currentScenario := currentScenario s;
     analysisData := analysisData s; isAnalyzing := isAnalyzing s;
     activeTool := activeTool s; layers := layers s;
     drawRef := v; trace := trace s |}.
Definition set_trace (v : list Effect) (s : State) : State :=
  {| status := status s; scenarios := scenarios s; currentScenario := currentScenario s;
     analysisData := analysisData s; isAnalyzing := isAnalyzing s;
     activeTool := activeTool s; layers := layers s;
     drawRef := drawRef s; trace := v |}.

(** The feature set of the drawing widget. *)
Definition editable (s : State) : list Feature :=
  match drawRef s with
  | Some d => Draw.getAll d
  | None => []
  end.

Definition setStatus (msg : string) : M State unit := modify (set_status msg).
Definition setScenarios (v : list string) : M State unit := modify (set_scenarios v).
Definition setCurrentScenario (v : string) : M State unit := modify (set_currentScenario v).
Definition setAnalysisData (v : option AnalysisData) : M State unit :=
  modify (set_analysisData v).
Definition setIsAnalyzing (v : bool) : M State unit := modify (set_isAnalyzing v).

Definition emit (e : Effect) : M State unit :=
  modify (λ s, set_trace (trace s ++ [e]) s).

(** [drawRef.current.deleteAll()] *)
Definition draw_deleteAll : M State unit :=
  modify (λ s, set_drawRef (Draw.deleteAll <$> drawRef s) s).

(** [draw.add(feature)] *)
Definition draw_add (E : Env) (f : Feature) : M State unit :=
  λ s, match drawRef s with
       | Some d =>
           match Draw.add E f d with
           | inl d' => (Ok tt, set_drawRef (Some d') s)
           | inr e => (Throw e, s)
           end
       | None => (Throw (TypeError "Cannot read properties of null (reading 'add')"), s)
       end.

(** [try { body } catch (e) { handler(e) } finally { fin }] *)
Definition try_catch_finally {A} (body : M State A) (handler : JsError → M State A)
    (fin : M State unit) : M State A :=
  λ s, match try_catch body handler s with
       | (r, s') =>
           match fin s' with
           | (Ok _, s'') => (r, s'')
           | (Throw e, s'') => (Throw e, s'')
           end
       end.

(** *** Handlers of draw.create, draw.update, draw.delete *)

Definition count (s : State) : string := pretty (length (editable s)).

Definition on_draw_create : M State unit :=
  n <- gets count ;; setStatus ("Drawn " +:+ n +:+ " objects").

Definition on_draw_update : M State unit :=
  n <- gets count ;; setStatus ("Updated " +:+ n +:+ " objects").

Definition on_draw_delete : M State unit :=
  n <- gets count ;; setStatus (n +:+ " objects remaining").

(** *** handleExport *)

Definition export_name (scenario : string) : string :=
  "tenom-plan-" +:+ scenario +:+ ".geojson".

Definition handleExport : M State unit :=
  draw <- gets drawRef ;;
  match draw with
  | None => ret tt
  | Some d =>
      let data := Draw.getAll d in
      if bool_decide (length data = 0) then setStatus "No features to export"
      else
        scenario <- gets currentScenario ;;
        emit (EDownload (export_name scenario) (FeatureCollection data)) ;;
        setStatus ("Exported " +:+ pretty (length data) +:+ " features")
  end.

(** *** handleImport

    [file] is [event.target.files[0]]: nothing chosen, or the text of the
    chosen file as [JSON.parse] reads it. *)

Definition JSON_parse (content : JsonOutcome) : M State JsonValue :=
  match content with
  | JsonSyntaxError => throw SyntaxError
  | JsonParsed v => ret v
  end.

(** [geoJson.features] *)
Definition get_features (v : JsonValue) : M State (option (list Feature)) :=
  match v with
  | JVNull => throw (TypeError "Cannot read properties of null (reading 'features')")
  | JVObj o => ret (obj_features o)
  end.

Definition handleImport (E : Env) (file : option JsonOutcome) : M State unit :=
  match file with
  | None => ret tt
  | Some content =>
      try_catch
        (geoJson <- JSON_parse content ;;
         draw <- gets drawRef ;;
         match draw with
         | None => ret tt
         | Some _ =>
             fs <- get_features geoJson ;;
             match fs with
             | None => ret tt
             | Some l =>
                 draw_deleteAll ;;
                 forEach (λ _ feature, draw_add E feature) 0 l ;;
                 setStatus ("Imported " +:+ pretty (length l) +:+ " features")
             end
         end)
        (λ _, setStatus "Error: Invalid GeoJSON file")
  end.

(** *** analyzeNow *)

Definition analyzeNow : M State unit :=
  draw <- gets drawRef ;;
  match draw with
  | None => ret tt
  | Some d =>
      if bool_decide (length (Draw.getAll d) = 0)
      then setStatus "Draw some features first to analyze"
      else
        setIsAnalyzing true ;;
        setStatus "Analyzing your urban plan..." ;;
        try_catch_finally
          (emit (ETimeout 2000) ;;
           setAnalysisData (Some mockAnalysisData) ;;
           setStatus "Analysis complete!")
          (λ _, setStatus "Analysis failed")
          (setIsAnalyzing false)
  end.

(** *** Scenarios

    [answer] is what [prompt] returns: [None] when the dialog is
    cancelled. *)

Definition createNewScenario (answer : option string) : M State unit :=
  known <- gets scenarios ;;
  match answer with
  | Some scenarioName =>
      if negb (bool_decide (scenarioName = EmptyString))
         && negb (bool_decide (scenarioName ∈ known))
      then
        setScenarios (known ++ [scenarioName]) ;;
        setCurrentScenario scenarioName ;;
        draw_deleteAll ;;
        setAnalysisData None ;;
        setStatus ("New scenario: " +:+ scenarioName)
      else ret tt
  | None => ret tt
  end.

Definition switchScenario (scenario : string) : M State unit :=
  setCurrentScenario scenario ;;
  setAnalysisData None ;;
  draw_deleteAll ;;
  setStatus ("Switched to " +:+ scenario).

Definition clearMap : M State unit :=
  draw <- gets drawRef ;;
  match draw with
  | Some _ => draw_deleteAll ;; setStatus "Map cleared"
  | None => ret tt
  end.

(** *** handleToolClick

    [drawRef.current.changeMode(...)] is the widget's: it stops the
    current mode, which discards a feature left unfinished, and throws on a
    mode it does not have; entering a drawing mode puts the feature about to
    be drawn into its store.  [after] is the store the widget holds when
    [changeMode] returns or throws.  The page's buttons pass [select],
    [polygon], [line_string] and [point]. *)

Definition draw_modes : list string := ["draw_polygon"; "draw_line_string"; "draw_point"].

Definition set_activeTool (v : string) (s : State) : State :=
  {| status := status s; scenarios := scenarios s; currentScenario := currentScenario s;
     analysisData := analysisData s; isAnalyzing := isAnalyzing s;
     activeTool := v; layers := layers s;
     drawRef := drawRef s; trace := trace s |}.

Definition handleToolClick (tool : string) (after : Draw.Store) : M State unit :=
  modify (set_activeTool tool) ;;
  draw <- gets drawRef ;;
  match draw with
  | Some _ =>
      if bool_decide (tool = "select")
      then
        modify (set_drawRef (Some after)) ;;
        setStatus "Select mode - click objects to edit"
      else
        modify (set_drawRef (Some after)) ;;
        (if bool_decide ("draw_" +:+ tool ∈ draw_modes)
         then ret tt
         else throw (Error ("draw_" +:+ tool +:+ " is not valid"))) ;;
        setStatus ("Drawing " +:+ tool +:+ " - click on map to start")
  | None => ret tt
  end.

(** *** toggleLayer

    [setLayers(prev => ({...prev, [layerId]: {...prev[layerId], visible:
    !prev[layerId].visible}}))].  The layers object is kept as the list of
    its members in insertion order. *)

Definition set_layers (v : list (string * Layer)) (s : State) : State :=
  {| status := status s; scenarios := scenarios s; currentScenario := currentScenario s;
     analysisData := analysisData s; isAnalyzing := isAnalyzing s;
     activeTool := activeTool s; layers := v;
     drawRef := drawRef s; trace := trace s |}.

(** [prev[layerId]] *)
Fixpoint get_layer (layerId : string) (ls : list (string * Layer)) : option Layer :=
  match ls with
  | [] => None
  | (k, l) :: rest => if decide (k = layerId) then Some l else get_layer layerId rest
  end.

(** [{...prev, [layerId]: l}]: the member is replaced where it stands, or
    added at the end when the object has no such member. *)
Fixpoint put_layer (layerId : string) (l : Layer) (ls : list (string * Layer))
    : list (string * Layer) :=
  match ls with
  | [] => [(layerId, l)]
  | (k, l0) :: rest =>
      if decide (k = layerId) then (k, l) :: rest
      else (k, l0) :: put_layer layerId l rest
  end.

Definition toggleLayer (layerId : string) : M State unit :=
  prev <- gets layers ;;
  match get_layer layerId prev with
  | None => throw (TypeError "Cannot read properties of undefined (reading 'visible')")
  | Some l =>
      modify (set_layers
        (put_layer layerId
           {| visible := negb (visible l); name := name l; color := color l |} prev))
  end.

(** The page right after a mount that created the map and the widget. *)
Definition mounted : State :=
  {| status := "Loading Tenom City Planner...";
     scenarios := ["Master Plan"; "Sustainable Vision"];
     currentScenario := "Master Plan";
     analysisData := None;
     isAnalyzing := false;
     activeTool := "select";
     layers :=
       [ ("population", {| visible := true; name := "Population Density"; color := "#10b981" |});
         ("floodRisk", {| visible := true; name := "Flood Risk"; color := "#3b82f6" |});
         ("vegetation", {| visible := true; name := "Vegetation"; color := "#22c55e" |});
         ("heatRisk", {| visible := false; name := "Heat Risk"; color := "#ef4444" |}) ];
     drawRef := Some Draw.empty;
     trace := [] |}.

End PlannerApp.

(** ** debounce

    [debounce(fn, wait)] keeps one variable [t], the id of the timer it set
    last.  The browser's timers are a table of armed timers; [setTimeout]
    hands out positive ids.  When a timer expires is left open: an armed
    timer may fire at any moment, which covers every choice of [wait] and
    every pace of calls. *)
Module Debounce.

Record Timer (A : Type) := {
  timer_id : nat;
  delay : N;
  args : A
}.
Arguments timer_id {A} _.
Arguments delay {A} _.
Arguments args {A} _.

Record State (A : Type) := {
  t : option nat;               (* [null] or the id of the last timer set *)
  armed : list (Timer A);       (* timers set and neither cleared nor fired *)
  last_id : nat;                (* the last id [setTimeout] handed out *)
  invoked : list A              (* the calls of [fn] so far, oldest first *)
}.
Arguments t {A} _.
Arguments armed {A} _.
Arguments last_id {A} _.
Arguments invoked {A} _.

Definition init {A} : State A :=
  {| t := None; armed := []; last_id := 0; invoked := [] |}.

(** [clearTimeout(id)]: an id that names no armed timer is ignored. *)
Definition clearTimeout {A} (id : nat) (tm : list (Timer A)) : list (Timer A) :=
  filter (λ x, timer_id x ≠ id) tm.

(** The function [debounce] returns, called with [a]:
    [if (t) clearTimeout(t); t = setTimeout(() => fn(...args), wait)]. *)
Definition call {A} (wait : N) (a : A) (s : State A) : State A :=
  let kept :=
    match t s with
    | Some id => if bool_decide (id ≠ 0) then clearTimeout id (armed s) else armed s
    | None => armed s
    end in
  let id := S (last_id s) in
  {| t := Some id;
     armed := kept ++ [{| timer_id := id; delay := wait; args := a |}];
     last_id := id;
     invoked := invoked s |}.

(** The timer [id] expires: it leaves the table and its callback calls
    [fn] with the arguments it closed over.  Nothing happens when no such
    timer is armed. *)
Definition fire {A} (id : nat) (s : State A) : State A :=
  match filter (λ x, timer_id x = id) (armed s) with
  | [] => s
  | x :: _ =>
      {| t := t s;
         armed := clearTimeout id (armed s);
         last_id := last_id s;
         invoked := invoked s ++ [args x] |}
  end.

Inductive Event (A : Type) :=
| Call (a : A)
| Fire (id : nat).
Arguments Call {A} a.
Arguments Fire {A} id.

Definition step {A} (wait : N) (s : State A) (ev : Event A) : State A :=
  match ev with
  | Call a => call wait a s
  | Fire id => fire id s
  end.

Definition run {A} (wait : N) (evs : list (Event A)) : State A :=
  foldl (step wait) init evs.

End Debounce.
Local Open Scope list_scope.

(** * Vocabulary of the statements *)

(** ** Decimal numerals *)


(** ** What the loops of the viewport sync compute *)

(** The features of a response after the id assignment of
    [fetchFeaturesForView], the clock standing at [k] when the loop starts. *)
Fixpoint assign_ids (E : Env) (k : nat) (fs : list Feature) : list Feature :=
  match fs with
  | [] => []
  | f :: rest =>
      if is_nullish (feat_id f)
      then with_id (SyncApp.synth_id E k) f :: assign_ids E (S k) rest
      else f :: assign_ids E k rest
  end.

(** How many features of a batch lack an id. *)
Definition lacking (fs : list Feature) : nat :=
  length (filter (λ f, is_nullish (feat_id f) = true) fs).



(** [try { draw.add(f) } catch (e) {}] on the widget alone. *)
Definition add_swallow (E : Env) (d : Draw.Store) (f : Feature) : Draw.Store :=
  match Draw.add E f d with
  | inl d' => d'
  | inr _ => d
  end.

(** [draw.delete(f.id)] for every [f] of [fs]. *)
Definition delete_each (fs : list Feature) (d : Draw.Store) : Draw.Store :=
  foldl (λ d f, Draw.delete (feat_id f) d) d fs.

(** The features as the widget keys them: an id of the widget's own for
    every feature whose id is falsy, [n] ids having been generated before. *)
Fixpoint keyed (E : Env) (n : nat) (fs : list Feature) : list Feature :=
  match fs with
  | [] => []
  | f :: rest => Draw.key E n f :: keyed E (Draw.generated_after n f) rest
  end.

(** Equal up to identifier assignment: same geometry, same properties, and
    the id kept when the feature brought a usable one. *)
Definition same_up_to_id (f g : Feature) : Prop :=
  feat_geometry g = feat_geometry f ∧
  feat_properties g = feat_properties f ∧
  (truthy (feat_id f) = true → feat_id g = feat_id f).

(** A request that fails: the promise rejects (transport error) or the
    response carries a non-success status. *)
Definition request_failed (o : SyncApp.FetchOutcome) : bool :=
  match o with
  | SyncApp.FetchRejected => true
  | SyncApp.FetchResponse st _ => negb (SyncApp.ok st)
  end.

(** The text [west,south,east,north] of a map's bounds. *)
Definition bbox_of (m : SyncApp.MapObj) : string :=
  SyncApp.west (SyncApp.bounds m) +:+ "," +:+ SyncApp.south (SyncApp.bounds m)
  +:+ "," +:+ SyncApp.east (SyncApp.bounds m) +:+ "," +:+ SyncApp.north (SyncApp.bounds m).

(** The map after [setData d], which is guarded by the presence of the
    source. *)
Definition map_with_data (m : SyncApp.MapObj) (d : SyncApp.Ref) : SyncApp.MapObj :=
  match SyncApp.source m with
  | Some _ => {| SyncApp.bounds := SyncApp.bounds m; SyncApp.source := Some d |}
  | None => m
  end.

(** The deletions of the sync, on the widget alone. *)
Definition cleared (d : Draw.Store) : Draw.Store := delete_each (Draw.getAll d) d.

(** The features of the object the rendered source holds. *)
Definition rendered_features (s : SyncApp.State) : list Feature :=
  match SyncApp.rendered s with
  | Some (JVObj o) => default [] (obj_features o)
  | _ => []
  end.



(** ** The specification's wording of three properties *)




(** ** Sample inputs *)

(** A clock that stands still and a generator that repeats itself. *)
Definition frozen_env : Env :=
  {| Date_now := λ _, 1700000000000%N;
     random_suffix := λ _, 42%N;
     generateID := λ k, "draw" +:+ pretty k |}.

(** A clock that advances by a millisecond per draw. *)
Definition ticking_env : Env :=
  {| Date_now := λ k, (1700000000000 + N.of_nat k)%N;
     random_suffix := λ _, 42%N;
     generateID := λ k, "draw" +:+ pretty k |}.

Definition sample_point : Geometry :=
  {| geom_type := "Point"; coordinates := JArr [JNum "115.9"; JNum "5.1"] |}.

Definition unnamed_point : Feature :=
  {| feat_id := IdUndefined; feat_geometry := Some sample_point; feat_properties := JObj [] |}.

Definition named_point : Feature :=
  {| feat_id := IdStr "a"; feat_geometry := Some sample_point; feat_properties := JObj [] |}.

Definition unnamed_without_geometry : Feature :=
  {| feat_id := IdUndefined; feat_geometry := None; feat_properties := JObj [] |}.

Definition sample_bounds : SyncApp.Bounds :=
  {| SyncApp.west := "115.8"; SyncApp.south := "5";
     SyncApp.east := "116"; SyncApp.north := "5.2" |}.

(** The synchronised page once the source has been added. *)
Definition loaded_page : SyncApp.State :=
  exec SyncApp.addSource (SyncApp.mounted sample_bounds).

(** The same page with one drawn feature. *)
Definition drawn_page : SyncApp.State :=
  SyncApp.set_drawRef
    (Some {| Draw.features := [named_point]; Draw.generated := 0 |}) loaded_page.

(** The planner page with one drawn feature. *)
Definition planner_drawn : PlannerApp.State :=
  PlannerApp.set_drawRef
    (Some {| Draw.features := [named_point]; Draw.generated := 0 |}) PlannerApp.mounted.

(** ** Vocabulary of the further properties *)

(** A store as the widget keeps it: every feature drawable, every id a
    usable one, no id twice. *)
Definition well_kept (d : Draw.Store) : Prop :=
  Forall (λ f, Draw.supported f = true) (Draw.features d) ∧
  Forall (λ f, truthy (feat_id f) = true) (Draw.features d) ∧
  NoDup (feat_id <$> Draw.features d).

(** The arguments of the calls among the events of a debounced function. *)
Definition calls {A} (evs : list (Debounce.Event A)) : list A :=
  omap (λ ev, match ev with
              | Debounce.Call a => Some a
              | Debounce.Fire _ => None
              end) evs.

(** [analyzeNow] waits two seconds between its two halves, and the page
    goes on handling events in between. *)
Definition analysis_begins : M PlannerApp.State unit :=
  draw <- gets PlannerApp.drawRef ;;
  match draw with
  | None => ret tt
  | Some d =>
      if bool_decide (length (Draw.getAll d) = 0)
      then PlannerApp.setStatus "Draw some features first to analyze"
      else
        PlannerApp.setIsAnalyzing true ;;
        PlannerApp.setStatus "Analyzing your urban plan..." ;;
        PlannerApp.emit (ETimeout 2000)
  end.

Definition analysis_ends : M PlannerApp.State unit :=
  PlannerApp.setAnalysisData (Some PlannerApp.mockAnalysisData) ;;
  PlannerApp.setStatus "Analysis complete!" ;;
  PlannerApp.setIsAnalyzing false.

(** The tool buttons of the page. *)
Definition tools : list string := ["select"; "polygon"; "line_string"; "point"].

(** What can happen on the planner page once it is mounted.  The map
    reports that it loaded or failed; an edit in the drawing widget leaves
    the widget holding some store and raises one of its three events, or
    none (a vertex placed, a drawing given up); a click on a tool button
    changes the widget's mode, after which the widget holds some store; an
    analysis runs at once or in its two halves, with other events in
    between. *)
Inductive PlannerEvent :=
| MapLoaded
| MapError
| DrawCreated (d : Draw.Store)
| DrawUpdated (d : Draw.Store)
| DrawDeleted (d : Draw.Store)
| DrawEdited (d : Draw.Store)
| ToolClicked (tool : string) (after : Draw.Store)
| LayerToggled (layerId : string)
| ExportClicked
| FileChosen (file : option JsonOutcome)
| AnalyzeClicked
| AnalysisStarted
| AnalysisDue
| ScenarioPrompted (answer : option string)
| ScenarioSelected (scenario : string)
| ClearClicked.

Definition planner_handle (E : Env) (ev : PlannerEvent) : M PlannerApp.State unit :=
  match ev with
  | MapLoaded => PlannerApp.setStatus "Map ready - Start planning your city!"
  | MapError => PlannerApp.setStatus "Map loading failed"
  | DrawCreated d =>
      bind (modify (PlannerApp.set_drawRef (Some d))) (λ _, PlannerApp.on_draw_create)
  | DrawUpdated d =>
      bind (modify (PlannerApp.set_drawRef (Some d))) (λ _, PlannerApp.on_draw_update)
  | DrawDeleted d =>
      bind (modify (PlannerApp.set_drawRef (Some d))) (λ _, PlannerApp.on_draw_delete)
  | DrawEdited d => modify (PlannerApp.set_drawRef (Some d))
  | ToolClicked tool after => PlannerApp.handleToolClick tool after
  | LayerToggled layerId => PlannerApp.toggleLayer layerId
  | ExportClicked => PlannerApp.handleExport
  | FileChosen file => PlannerApp.handleImport E file
  | AnalyzeClicked => PlannerApp.analyzeNow
  | AnalysisStarted => analysis_begins
  | AnalysisDue => analysis_ends
  | ScenarioPrompted answer => PlannerApp.createNewScenario answer
  | ScenarioSelected scenario => PlannerApp.switchScenario scenario
  | ClearClicked => PlannerApp.clearMap
  end.

(** What the page offers: the widget is edited and raises events only once
    it exists, there is one button per tool, the scenario menu lists the
    known scenarios, there is one checkbox per layer. *)
Definition planner_offers (s : PlannerApp.State) (ev : PlannerEvent) : Prop :=
  match ev with
  | DrawCreated _ | DrawUpdated _ | DrawDeleted _ | DrawEdited _ =>
      is_Some (PlannerApp.drawRef s)
  | ToolClicked tool _ => tool ∈ tools
  | LayerToggled layerId => layerId ∈ (PlannerApp.layers s).*1
  | ScenarioSelected scenario => scenario ∈ PlannerApp.scenarios s
  | _ => True
  end.

(** How mounting can end: with the map and the widget created; without
    either, when the container is missing (the status stays) or when
    creating them throws (the status says so).  Whatever the outcome, the
    page differs from [PlannerApp.mounted] in the status and the widget at
    most. *)
Definition planner_start (s : PlannerApp.State) : Prop :=
  ∃ st dr, s = PlannerApp.set_status st (PlannerApp.set_drawRef dr PlannerApp.mounted).

(** The page after a mount that threw. *)
Definition mount_failed : PlannerApp.State :=
  PlannerApp.set_status "Failed to create map"
    (PlannerApp.set_drawRef None PlannerApp.mounted).

(** The states the planner page can be in. *)
Inductive planner_reachable (E : Env) : PlannerApp.State → Prop :=
| reach_start (s : PlannerApp.State) :
    planner_start s → planner_reachable E s
| reach_event (s : PlannerApp.State) (ev : PlannerEvent) :
    planner_reachable E s →
    planner_offers s ev →
    planner_reachable E (exec (planner_handle E ev) s).

(** The map exists and has its "features" source. *)
Definition has_source (s : SyncApp.State) : Prop :=
  ∃ m r, SyncApp.mapRef s = Some m ∧ SyncApp.source m = Some r.

(** The state of a debounced function after the events [evs]: either no
    timer is armed, or exactly one is, set by the latest call and carrying
    its arguments; [fn] has been invoked for earlier calls only, in their
    order. *)
Definition one_pending {A} (wait : N) (evs : list (Debounce.Event A))
    (s : Debounce.State A) : Prop :=
  (Debounce.armed s = [] ∧ sublist (Debounce.invoked s) (calls evs)) ∨
  (∃ pre a,
     calls evs = pre ++ [a] ∧
     sublist (Debounce.invoked s) pre ∧
     Debounce.armed s
     = [{| Debounce.timer_id := Debounce.last_id s; Debounce.delay := wait;
           Debounce.args := a |}] ∧
     Debounce.t s = Some (Debounce.last_id s) ∧
     Debounce.last_id s ≠ 0).

(** The features of a file the import hands to the widget before the first
    one it rejects. *)
Fixpoint accepted_prefix (fs : list Feature) : list Feature :=
  match fs with
  | [] => []
  | f :: rest => if Draw.supported f then f :: accepted_prefix rest else []
  end.

(** ** The features on which the widget model is exact *)

(** The property name under which the widget files an id. *)
Definition id_key (i : JsId) : string :=
  match i with
  | IdUndefined => "undefined"
  | IdNull => "null"
  | IdStr s => s
  | IdNum n => pretty n
  end.

Definition digit_value (c : ascii) : option N :=
  let n := N_of_ascii c in
  if bool_decide (48 ≤ n ≤ 57)%N then Some (n - 48)%N else None.

(** The number a text of decimal digits writes. *)
Fixpoint digits_value (acc : N) (k : string) : option N :=
  match k with
  | EmptyString => Some acc
  | String c rest =>
      match digit_value c with
      | Some v => digits_value (10 * acc + v)%N rest
      | None => None
      end
  end.

(** A property name that writes a natural number in canonical decimal, as
    the names of array indices do.  [Object.keys] lists array indices
    first, in numeric order, whatever the order of insertion. *)
Definition integer_key (k : string) : bool :=
  match k with
  | EmptyString => false
  | _ =>
      match digits_value 0 k with
      | Some n => bool_decide (pretty n = k)
      | None => false
      end
  end.

Definition is_object (j : Json) : bool :=
  match j with
  | JObj _ => true
  | _ => false
  end.

(** A linear ring that ends where it starts. *)
Definition closed_ring (r : Json) : Prop :=
  ∃ x mid, r = JArr (x :: mid ++ [x]).

(** The coordinates of a polygon: an array of closed rings. *)
Definition polygon_rings (j : Json) : Prop :=
  ∃ rs, j = JArr rs ∧ Forall closed_ring rs.

(** Coordinates the widget stores and returns unchanged: arrays, the
    rings of a polygon closed.  (The widget looks the geometry type up in
    an object of its constructors: the type [constructor] finds the
    inherited one there and is left out.) *)
Definition well_formed (g : Geometry) : Prop :=
  if decide (geom_type g = "Polygon") then polygon_rings (coordinates g)
  else if decide (geom_type g = "MultiPolygon")
       then ∃ ps, coordinates g = JArr ps ∧ Forall polygon_rings ps
  else if decide (geom_type g ∈ Draw.supported_types)
       then ∃ xs, coordinates g = JArr xs
  else if decide (geom_type g = "constructor") then False
  else True.

(** A feature with an object for properties and, when it has a geometry,
    well-formed coordinates. *)
Definition tidy (f : Feature) : Prop :=
  is_object (feat_properties f) = true ∧
  ∀ g, feat_geometry f = Some g → well_formed g.

(** The geometries the widget holds as one feature.  (The parts of a
    multi-geometry are features of their own inside the widget, each with a
    generated id.) *)
Definition single_types : list string := ["Point"; "LineString"; "Polygon"].

(** A tidy feature with a single geometry. *)
Definition plain (f : Feature) : Prop :=
  tidy f ∧ ∃ g, feat_geometry f = Some g ∧ geom_type g ∈ single_types.

(** A number that JavaScript holds exactly and prints in plain decimal. *)
Definition exact_id (i : JsId) : bool :=
  match i with
  | IdNum n => bool_decide (-9007199254740991 ≤ n ≤ 9007199254740991)%Z
  | _ => true
  end.

(** Ids that are their own keys: exact, with pairwise distinct property
    names, none of them an integer key. *)
Definition own_keys (fs : list Feature) : Prop :=
  NoDup ((λ f, id_key (feat_id f)) <$> fs) ∧
  Forall (λ f, exact_id (feat_id f) && negb (integer_key (id_key (feat_id f))) = true) fs.

(** Same geometry and same properties. *)
Definition same_content (f g : Feature) : Prop :=
  feat_geometry g = feat_geometry f ∧ feat_properties g = feat_properties f.

(** ** The draw-event mirror on the planner page *)

(** A source of the map's style: its name, its type and, for a GeoJSON
    source, its data. *)
Record StyleSource := {
  src_name : string;
  src_type : string;
  src_data : option JsonValue
}.

(** The planner page creates its map with one source, the raster tiles
    [osm]. *)
Definition planner_sources : list StyleSource :=
  [ {| src_name := "osm"; src_type := "raster"; src_data := None |} ].

(** What [map.getSource(name)] has to show on the planner page.  None of
    the page's handlers adds a source or sets the data of one: the sources
    are those of the style, whatever the state. *)
Definition planner_source_data (name : string) (s : PlannerApp.State) : option JsonValue :=
  src ← list_find (λ x, src_name x = name) planner_sources;
  src_data src.2.

(** The specification's wording of the mirror, read on the planner page:
    after the handler of a draw event the data of the "features" source is
    the widget's feature set. *)
Definition planner_mirror_contract (handler : M PlannerApp.State unit)
    (s : PlannerApp.State) : Prop :=
  planner_source_data "features" (exec handler s)
  = Some (JVObj (FeatureCollection (PlannerApp.editable (exec handler s)))).
(** * Properties *)

(** ** Decimal numerals and synthesized identifiers *)






(** ** The drawing widget *)

Lemma filter_all {A} (P : A → Prop) `{!∀ x, Decision (P x)} (l : list A) :
  (∀ x, x ∈ l → P x) → filter P l = l.
Proof.
  induction l as [|x l IH]; intros Hall; [done|].
  rewrite filter_cons_True by (apply Hall; left).
  f_equal. apply IH. intros y Hy. apply Hall. by right.
Qed.

Lemma filter_none {A} (P : A → Prop) `{!∀ x, Decision (P x)} (l : list A) :
  (∀ x, x ∈ l → ¬ P x) → filter P l = [].
Proof.
  induction l as [|x l IH]; intros Hall; [done|].
  rewrite filter_cons_False by (apply Hall; left).
  apply IH. intros y Hy. apply Hall. by right.
Qed.

Lemma delete_each_generated (fs : list Feature) (d : Draw.Store) :
  Draw.generated (delete_each fs d) = Draw.generated d.
Proof.
  revert d. induction fs as [|f fs IH]; intros d; [done|].
  unfold delete_each in *. simpl. by rewrite IH.
Qed.

Lemma delete_each_features (fs : list Feature) (d : Draw.Store) :
  Draw.features (delete_each fs d)
  = filter (λ g, feat_id g ∉ feat_id <$> fs) (Draw.features d).
Proof.
  revert d. induction fs as [|f fs IH]; intros d.
  - simpl. symmetry. apply filter_all. intros g _. apply not_elem_of_nil.
  - unfold delete_each in *. simpl. rewrite IH. simpl.
    rewrite list_filter_filter. apply list_filter_iff.
    intros g. rewrite not_elem_of_cons. tauto.
Qed.

(** Deleting every feature the widget returns from [getAll] empties it. *)
Lemma delete_each_own (d : Draw.Store) :
  Draw.getAll (delete_each (Draw.getAll d) d) = [].
Proof.
  unfold Draw.getAll. rewrite delete_each_features.
  apply filter_none. intros g Hg Hn. apply Hn.
  by apply list_elem_of_fmap_2.
Qed.

Lemma key_geometry (E : Env) (n : nat) (f : Feature) :
  feat_geometry (Draw.key E n f) = feat_geometry f.
Proof. unfold Draw.key. by destruct (truthy (feat_id f)). Qed.

Lemma key_properties (E : Env) (n : nat) (f : Feature) :
  feat_properties (Draw.key E n f) = feat_properties f.
Proof. unfold Draw.key. by destruct (truthy (feat_id f)). Qed.

Lemma key_truthy (E : Env) (n : nat) (f : Feature) :
  truthy (feat_id f) = true → Draw.key E n f = f.
Proof. unfold Draw.key. by intros ->. Qed.

(** [draw.add] succeeds exactly on the features the widget supports. *)
Lemma add_supported (E : Env) (f : Feature) (d : Draw.Store) :
  Draw.supported f = true →
  Draw.add E f d
  = inl {| Draw.features := Draw.upsert (Draw.key E (Draw.generated d) f) (Draw.features d);
           Draw.generated := Draw.generated_after (Draw.generated d) f |}.
Proof.
  unfold Draw.supported, Draw.add. rewrite key_geometry.
  destruct (feat_geometry f) as [g|]; [|done]. by intros ->.
Qed.

Lemma add_unsupported (E : Env) (f : Feature) (d : Draw.Store) :
  Draw.supported f = false → ∃ e, Draw.add E f d = inr e.
Proof.
  unfold Draw.supported, Draw.add. rewrite key_geometry.
  destruct (feat_geometry f) as [g|]; [intros ->|]; eauto.
Qed.

Lemma add_swallow_unsupported (E : Env) (f : Feature) (d : Draw.Store) :
  Draw.supported f = false → add_swallow E d f = d.
Proof.
  intros H. unfold add_swallow.
  by destruct (add_unsupported E f d H) as [e ->].
Qed.

Lemma upsert_fresh (f : Feature) (fs : list Feature) :
  feat_id f ∉ feat_id <$> fs → Draw.upsert f fs = fs ++ [f].
Proof.
  intros H. unfold Draw.upsert, Draw.has_id.
  by rewrite bool_decide_eq_false_2.
Qed.

(** Adding features the widget supports, under identifiers that are new to
    it and pairwise distinct, appends them in order. *)
Lemma add_all_fresh (E : Env) (fs pre : list Feature) (n : nat) :
  Forall (λ f, Draw.supported f = true) fs →
  NoDup (feat_id <$> (pre ++ keyed E n fs)) →
  Draw.features (foldl (add_swallow E) {| Draw.features := pre; Draw.generated := n |} fs)
  = pre ++ keyed E n fs.
Proof.
  revert pre n. induction fs as [|f fs IH]; intros pre n Hs Hnd; simpl.
  - by rewrite app_nil_r.
  - apply Forall_cons in Hs as [Hf Hs].
    unfold add_swallow at 2. rewrite add_supported by done. simpl.
    simpl in Hnd. rewrite cons_middle, app_assoc in Hnd.
    rewrite upsert_fresh.
    + rewrite IH by done. by rewrite <-app_assoc.
    + rewrite fmap_app, fmap_app in Hnd. simpl in Hnd.
      apply NoDup_app in Hnd as [Hnd _].
      apply NoDup_app in Hnd as (_ & Hnd & _).
      intros Hin. apply (Hnd _ Hin). left.
Qed.

(** ** The loops of fetchFeaturesForView *)

Section sync_loops.
Import SyncApp.

Lemma set_drawRef_same (s : State) : set_drawRef (drawRef s) s = s.
Proof. by destruct s. Qed.

Lemma delete_loop (fs : list Feature) (s : State) :
  delete_existing fs s = (Ok tt, set_drawRef (delete_each fs <$> drawRef s) s).
Proof.
  unfold delete_existing. generalize 0.
  revert s. induction fs as [|f fs IH]; intros s i.
  - simpl. unfold ret. f_equal. destruct s as [? ? [d|] ? ? ?]; done.
  - simpl. unfold bind at 1. unfold try_catch at 1, draw_delete at 1, modify at 1.
    rewrite IH. f_equal. destruct s as [? ? [d|] ? ? ?]; done.
Qed.

Lemma swallowed_add (E : Env) (f : Feature) (s : State) (d : Draw.Store) :
  drawRef s = Some d →
  try_catch (draw_add E f) (λ _, ret tt) s
  = (Ok tt, set_drawRef (Some (add_swallow E d f)) s).
Proof.
  intros Hd. unfold try_catch, draw_add, add_swallow. rewrite Hd.
  destruct (Draw.add E f d) as [d'|e]; [done|].
  unfold ret. f_equal. rewrite <-Hd. symmetry. apply set_drawRef_same.
Qed.

Lemma lacking_cons (f : Feature) (fs : list Feature) :
  lacking (f :: fs) = (if is_nullish (feat_id f) then 1 else 0) + lacking fs.
Proof.
  unfold lacking. destruct (is_nullish (feat_id f)) eqn:Hn.
  - by rewrite filter_cons_True.
  - rewrite filter_cons_False; [done|]. by rewrite Hn.
Qed.

Lemma assign_ids_length (E : Env) (k : nat) (fs : list Feature) :
  length (assign_ids E k fs) = length fs.
Proof.
  revert k. induction fs as [|f fs IH]; intros k; [done|].
  simpl. destruct (is_nullish (feat_id f)); simpl; by rewrite IH.
Qed.

Lemma assign_id_nullish (E : Env) (l : loc) (i : nat) (f : Feature) (s : State) (o : Obj) :
  is_nullish (feat_id f) = true →
  heap s !! l = Some o →
  assign_id E l i f s
  = (Ok (with_id (synth_id E (clock s)) f),
     set_heap (<[l := store_feature i (with_id (synth_id E (clock s)) f) o]> (heap s))
              (set_clock (S (clock s)) s)).
Proof.
  intros Hn Hl. unfold assign_id. rewrite Hn.
  unfold bind, gets, modify, set_feature, ret. simpl. by rewrite Hl.
Qed.

Lemma assign_id_keep (E : Env) (l : loc) (i : nat) (f : Feature) (s : State) :
  is_nullish (feat_id f) = false → assign_id E l i f s = (Ok f, s).
Proof. intros Hn. unfold assign_id. by rewrite Hn. Qed.

Lemma add_loop (E : Env) (l : loc) (fs : list Feature) :
  ∀ (done : list Feature) (s : State) (o : Obj) (d : Draw.Store),
  heap s !! l = Some o →
  obj_features o = Some (done ++ fs) →
  drawRef s = Some d →
  add_each E l (length done) fs s
  = (Ok tt,
     {| status := status s;
        mapRef := mapRef s;
        drawRef := Some (foldl (add_swallow E) d (assign_ids E (clock s) fs));
        heap := <[l := {| obj_type := obj_type o;
                          obj_features := Some (done ++ assign_ids E (clock s) fs) |}]>
                (heap s);
        clock := clock s + lacking fs;
        trace := trace s |}).
Proof.
  induction fs as [|f fs IH]; intros done s o d Hl Ho Hd.
  - simpl. unfold ret. f_equal.
    destruct s as [st m dr h c tr], o as [ty ofs]; simpl in *; subst.
    f_equal; [|unfold lacking; simpl; lia].
    symmetry. by apply list_insert_id.
  - unfold add_each in *. simpl forEach. unfold bind at 1.
    unfold bind at 1.
    rewrite lacking_cons. simpl assign_ids.
    destruct (is_nullish (feat_id f)) eqn:Hn.
    + rewrite (assign_id_nullish E l _ f s o Hn Hl).
      set (f' := with_id (synth_id E (clock s)) f).
      set (o' := store_feature (length done) f' o).
      set (s1 := set_heap (<[l := o']> (heap s)) (set_clock (S (clock s)) s)).
      assert (Hd1 : drawRef s1 = Some d) by done.
      rewrite (swallowed_add E f' s1 d Hd1).
      assert (Hl1 : heap (set_drawRef (Some (add_swallow E d f')) s1) !! l = Some o').
      { simpl. apply list_lookup_insert_eq. by eapply lookup_lt_Some. }
      assert (Ho1 : obj_features o' = Some ((done ++ [f']) ++ fs)).
      { unfold o', store_feature. simpl. rewrite Ho. simpl. f_equal.
        rewrite <-app_assoc. simpl.
        replace (length done) with (length done + 0) by lia.
        by rewrite insert_app_r. }
      replace (S (length done)) with (length (done ++ [f'])) by (rewrite length_app; simpl; lia).
      rewrite (IH (done ++ [f']) _ o' (add_swallow E d f') Hl1 Ho1 eq_refl).
      f_equal. simpl. f_equal.
      * rewrite list_insert_insert_eq. by rewrite <-app_assoc.
      * lia.
    + rewrite (assign_id_keep E l _ f s Hn).
      rewrite (swallowed_add E f s d Hd).
      assert (Hl1 : heap (set_drawRef (Some (add_swallow E d f)) s) !! l = Some o) by done.
      assert (Ho1 : obj_features o = Some ((done ++ [f]) ++ fs)).
      { by rewrite <-app_assoc. }
      replace (S (length done)) with (length (done ++ [f])) by (rewrite length_app; simpl; lia).
      rewrite (IH (done ++ [f]) _ o (add_swallow E d f) Hl1 Ho1 eq_refl).
      f_equal. simpl. f_equal.
      by rewrite <-app_assoc.
Qed.

End sync_loops.

(** ** fetchFeaturesForView, case by case *)

Section sync_runs.
Import SyncApp.

Lemma fetch_success (E : Env) (s : State) (st : Z) (o : Obj) (fs : list Feature)
    (m : MapObj) (d : Draw.Store) :
  ok st = true →
  obj_features o = Some fs →
  mapRef s = Some m →
  drawRef s = Some d →
  fetchFeaturesForView E (FetchResponse st (JsonParsed (JVObj o))) s
  = (Ok tt,
     {| status := "Loaded " +:+ pretty (length fs) +:+ " features";
        mapRef := Some (map_with_data m (RefObj (length (heap s))));
        drawRef := Some (foldl (add_swallow E) (delete_each (Draw.getAll d) d)
                               (assign_ids E (clock s) fs));
        heap := heap s ++ [ {| obj_type := obj_type o;
                               obj_features := Some (assign_ids E (clock s) fs) |} ];
        clock := clock s + lacking fs;
        trace := trace s ++ [EFetch (features_url (bbox_of m))] |}).
Proof.
  intros Hok Ho Hm Hd.
  destruct s as [st0 mr dr h c tr]; simpl in Hm, Hd; subst.
  assert (Hh : (h ++ [o]) !! length h = Some o) by (by apply list_lookup_middle).
  assert (Hlt : length h < length (h ++ [o])) by (rewrite length_app; simpl; lia).
  unfold fetchFeaturesForView, features_length, get_features, setStatus, emit,
    await, res_json, alloc, setData, draw_getAll, bboxFromMap.
  unfold bind, try_catch at 1, modify, gets, ret.
  cbn [fst snd]. rewrite Hok.
  destruct m as [b [r|]]; simpl; rewrite delete_loop;
    unfold set_mapRef, set_heap, set_trace, set_status, set_drawRef, editable, bbox_of,
      map_with_data; simpl;
    rewrite Hh, Ho.
  all: destruct fs as [|f rest].
  all: try (simpl; rewrite Hh, Ho; simpl; destruct o as [ty ofs]; simpl in *; subst;
            do 3 f_equal; unfold lacking; simpl; lia).
  all: match goal with
       | Hh' : _ !! _ = Some ?o', Ho' : obj_features ?o' = Some _
         |- context [add_each ?E' ?l 0 ?fs ?s1] =>
           pose proof (add_loop E' l fs [] s1 o' _ Hh' Ho' eq_refl) as Hloop
       end;
       cbn [length app status mapRef drawRef heap clock trace] in Hloop;
       rewrite Hloop; cbn [heap];
       rewrite (list_lookup_insert_eq _ _ _ Hlt);
       cbn [obj_features status mapRef drawRef heap clock trace];
       rewrite assign_ids_length;
       do 3 f_equal;
       rewrite insert_app_r_alt by lia;
       by rewrite Nat.sub_diag.
Qed.


Lemma cleared_empty (d : Draw.Store) : Draw.getAll (cleared d) = [].
Proof. apply delete_each_own. Qed.

Lemma cleared_generated (d : Draw.Store) : Draw.generated (cleared d) = Draw.generated d.
Proof. apply delete_each_generated. Qed.

(** A 2xx response whose body is an object without a [features] member. *)
Lemma fetch_without_features (E : Env) (s : State) (st : Z) (o : Obj) (m : MapObj) :
  ok st = true →
  obj_features o = None →
  mapRef s = Some m →
  fetchFeaturesForView E (FetchResponse st (JsonParsed (JVObj o))) s
  = (Ok tt,
     {| status := "Failed to load viewport features";
        mapRef := Some (map_with_data m (RefObj (length (heap s))));
        drawRef := cleared <$> drawRef s;
        heap := heap s ++ [o];
        clock := clock s;
        trace := trace s ++
          [EFetch (features_url (bbox_of m));
           EConsoleError "fetchFeaturesForView error:"
             (TypeError "Cannot read properties of undefined (reading 'length')")] |}).
Proof.
  intros Hok Ho Hm.
  destruct s as [st0 mr dr h c tr]; simpl in Hm; subst.
  assert (Hh : (h ++ [o]) !! length h = Some o) by (by apply list_lookup_middle).
  unfold fetchFeaturesForView, features_length, get_features, setStatus, console_error,
    emit, await, res_json, alloc, setData, draw_getAll, bboxFromMap.
  unfold bind, try_catch at 1, modify, gets, ret, throw.
  cbn [fst snd]. rewrite Hok.
  destruct m as [b [r|]], dr as [d|]; simpl; rewrite ?delete_loop;
    unfold set_mapRef, set_heap, set_trace, set_status, set_drawRef, editable, bbox_of,
      map_with_data, cleared; simpl;
    rewrite ?Hh, ?Ho; simpl; rewrite ?Hh, ?Ho; simpl;
    by rewrite <-app_assoc.
Qed.

(** A 2xx response whose body is the JSON document [null]. *)
Lemma fetch_null_body (E : Env) (s : State) (st : Z) (m : MapObj) :
  ok st = true →
  mapRef s = Some m →
  fetchFeaturesForView E (FetchResponse st (JsonParsed JVNull)) s
  = (Ok tt,
     {| status := "Failed to load viewport features";
        mapRef := Some (map_with_data m RefNull);
        drawRef := cleared <$> drawRef s;
        heap := heap s;
        clock := clock s;
        trace := trace s ++
          [EFetch (features_url (bbox_of m));
           EConsoleError "fetchFeaturesForView error:"
             (TypeError "Cannot read properties of null (reading 'features')")] |}).
Proof.
  intros Hok Hm.
  destruct s as [st0 mr dr h c tr]; simpl in Hm; subst.
  unfold fetchFeaturesForView, features_length, get_features, setStatus, console_error,
    emit, await, res_json, alloc, setData, draw_getAll, bboxFromMap.
  unfold bind, try_catch at 1, modify, gets, ret, throw.
  cbn [fst snd]. rewrite Hok.
  destruct m as [b [r|]], dr as [d|]; simpl; rewrite ?delete_loop;
    unfold set_mapRef, set_heap, set_trace, set_status, set_drawRef, editable, bbox_of,
      map_with_data, cleared; simpl;
    by rewrite <-app_assoc.
Qed.

(** A 2xx response with a features array, the widget not being there. *)
Lemma fetch_success_no_widget (E : Env) (s : State) (st : Z) (o : Obj)
    (fs : list Feature) (m : MapObj) :
  ok st = true →
  obj_features o = Some fs →
  mapRef s = Some m →
  drawRef s = None →
  fetchFeaturesForView E (FetchResponse st (JsonParsed (JVObj o))) s
  = (Ok tt,
     {| status := "Loaded " +:+ pretty (length fs) +:+ " features";
        mapRef := Some (map_with_data m (RefObj (length (heap s))));
        drawRef := None;
        heap := heap s ++ [o];
        clock := clock s;
        trace := trace s ++ [EFetch (features_url (bbox_of m))] |}).
Proof.
  intros Hok Ho Hm Hd.
  destruct s as [st0 mr dr h c tr]; simpl in Hm, Hd; subst.
  assert (Hh : (h ++ [o]) !! length h = Some o) by (by apply list_lookup_middle).
  unfold fetchFeaturesForView, features_length, get_features, setStatus, console_error,
    emit, await, res_json, alloc, setData, draw_getAll, bboxFromMap.
  unfold bind, try_catch at 1, modify, gets, ret, throw.
  cbn [fst snd]. rewrite Hok.
  destruct m as [b [r|]]; simpl;
    unfold set_mapRef, set_heap, set_trace, set_status, set_drawRef, editable, bbox_of,
      map_with_data; simpl;
    rewrite ?Hh, ?Ho; simpl; done.
Qed.

(** No map, a request that fails, or a body that is not JSON. *)
Lemma fetch_failed (E : Env) (o : FetchOutcome) (s : State) :
  mapRef s = None ∨ request_failed o = true ∨ (∃ st, o = FetchResponse st JsonSyntaxError) →
  ∃ errs,
    fetchFeaturesForView E o s
    = (Ok tt,
       {| status := "Failed to load viewport features";
          mapRef := mapRef s;
          drawRef := drawRef s;
          heap := heap s;
          clock := clock s;
          trace := trace s ++
            match mapRef s with
            | Some m => EFetch (features_url (bbox_of m)) :: errs
            | None => errs
            end |}).
Proof.
  intros Hfail.
  destruct s as [st0 mr dr h c tr].
  unfold fetchFeaturesForView, features_length, get_features, setStatus, console_error,
    emit, await, res_json, alloc, setData, draw_getAll, bboxFromMap.
  unfold bind, try_catch at 1, modify, gets, ret, throw.
  destruct mr as [m|]; simpl.
  - destruct Hfail as [[=]|Hfail].
    destruct o as [|st b]; simpl.
    + eexists. unfold set_trace, set_status; simpl. rewrite <-app_assoc. simpl. done.
    + destruct (ok st) eqn:Hok; simpl.
      * destruct Hfail as [Hfail|[st' [= -> ->]]].
        { simpl in Hfail. by rewrite Hok in Hfail. }
        eexists. unfold set_trace, set_status; simpl. rewrite <-app_assoc. simpl. done.
      * eexists. unfold set_trace, set_status; simpl. rewrite <-app_assoc. simpl. done.
  - eexists. unfold set_trace, set_status; simpl. done.
Qed.

(** [fetchFeaturesForView] never throws, and the first thing it sends, when
    there is a map, is the request for the current viewport. *)
Lemma fetch_runs (E : Env) (o : FetchOutcome) (s : State) :
  ∃ s' rest,
    fetchFeaturesForView E o s = (Ok tt, s') ∧
    trace s' = trace s ++
      match mapRef s with
      | Some m => EFetch (features_url (bbox_of m)) :: rest
      | None => rest
      end.
Proof.
  destruct (mapRef s) as [m|] eqn:Hm.
  - destruct o as [|st b].
    { destruct (fetch_failed E FetchRejected s) as [errs ->]; [by right; left|].
      rewrite Hm. by do 2 eexists. }
    destruct (ok st) eqn:Hok.
    2:{ destruct (fetch_failed E (FetchResponse st b) s) as [errs ->].
        { right; left. simpl. by rewrite Hok. }
        rewrite Hm. by do 2 eexists. }
    destruct b as [|[|o]].
    + destruct (fetch_failed E (FetchResponse st JsonSyntaxError) s) as [errs ->].
      { right; right. by eexists. }
      rewrite Hm. by do 2 eexists.
    + rewrite (fetch_null_body E s st m Hok Hm). by do 2 eexists.
    + destruct (obj_features o) as [fs|] eqn:Ho.
      * destruct (drawRef s) as [d|] eqn:Hd.
        -- rewrite (fetch_success E s st o fs m d Hok Ho Hm Hd). by do 2 eexists.
        -- rewrite (fetch_success_no_widget E s st o fs m Hok Ho Hm Hd). by do 2 eexists.
      * rewrite (fetch_without_features E s st o m Hok Ho Hm). by do 2 eexists.
  - destruct (fetch_failed E o s) as [errs ->]; [by left|].
    rewrite Hm. by do 2 eexists.
Qed.

End sync_runs.

(** ** Identifier assignment *)

Lemma nullish_not_truthy (i : JsId) : truthy i = true → is_nullish i = false.
Proof. by destruct i. Qed.









(** ** What a run of [draw.add] can leave in the widget *)

Lemma cleared_is_empty_store (d : Draw.Store) :
  cleared d = {| Draw.features := []; Draw.generated := Draw.generated d |}.
Proof.
  pose proof (cleared_empty d) as Hf. pose proof (cleared_generated d) as Hg.
  destruct (cleared d) as [cf cg]. unfold Draw.getAll in Hf. simpl in *. by subst.
Qed.

Lemma upsert_elem (f g : Feature) (l : list Feature) :
  g ∈ Draw.upsert f l → g = f ∨ g ∈ l.
Proof.
  unfold Draw.upsert, Draw.update. destruct (Draw.has_id (feat_id f) l).
  - intros Hg. apply list_elem_of_fmap in Hg as (x & -> & Hx).
    destruct (decide (feat_id x = feat_id f)); auto.
  - intros Hg. apply elem_of_app in Hg as [Hg|Hg]; [by right|].
    apply list_elem_of_singleton in Hg. by left.
Qed.

Lemma upsert_length (f : Feature) (l : list Feature) :
  (length (Draw.upsert f l) ≤ S (length l))%nat.
Proof.
  unfold Draw.upsert, Draw.update. destruct (Draw.has_id (feat_id f) l).
  - rewrite length_fmap. lia.
  - rewrite length_app. simpl. lia.
Qed.

Lemma add_swallow_features (E : Env) (d : Draw.Store) (f : Feature) :
  Draw.features (add_swallow E d f) = Draw.features d ∨
  Draw.features (add_swallow E d f)
  = Draw.upsert (Draw.key E (Draw.generated d) f) (Draw.features d).
Proof.
  unfold add_swallow, Draw.add.
  destruct (feat_geometry (Draw.key E (Draw.generated d) f)) as [g|]; [|by left].
  destruct (bool_decide (geom_type g ∈ Draw.supported_types)); [by right | by left].
Qed.

(** Whatever [draw.add] is tried on, the widget ends up holding only what it
    held and keyed copies of what was offered, and at most one feature more
    per offer. *)
Lemma add_all_elem (E : Env) (fs : list Feature) :
  ∀ (d : Draw.Store) (g : Feature),
  g ∈ Draw.features (foldl (add_swallow E) d fs) →
  g ∈ Draw.features d ∨ ∃ f n, f ∈ fs ∧ g = Draw.key E n f.
Proof.
  induction fs as [|f fs IH]; intros d g Hg; simpl in Hg; [by left|].
  apply IH in Hg as [Hg|(f' & n & Hf' & ->)].
  - destruct (add_swallow_features E d f) as [Heq|Heq]; rewrite Heq in Hg.
    + by left.
    + apply upsert_elem in Hg as [->|Hg]; [|by left].
      right. exists f, (Draw.generated d). split; [left|done].
  - right. exists f', n. split; [by right|done].
Qed.

Lemma add_all_length (E : Env) (fs : list Feature) :
  ∀ d : Draw.Store,
  (length (Draw.features (foldl (add_swallow E) d fs))
   ≤ length (Draw.features d) + length fs)%nat.
Proof.
  induction fs as [|f fs IH]; intros d; simpl; [lia|].
  etrans; [apply IH|].
  destruct (add_swallow_features E d f) as [Heq|Heq]; rewrite Heq.
  - lia.
  - pose proof (upsert_length (Draw.key E (Draw.generated d) f) (Draw.features d)). lia.
Qed.

Lemma assign_ids_elem (E : Env) (fs : list Feature) :
  ∀ (k : nat) (f' : Feature),
  f' ∈ assign_ids E k fs → ∃ f, f ∈ fs ∧ same_up_to_id f f'.
Proof.
  induction fs as [|f fs IH]; intros k f' Hf'; simpl in Hf'.
  - by apply elem_of_nil in Hf'.
  - destruct (is_nullish (feat_id f)) eqn:Hn;
      apply elem_of_cons in Hf' as [->|Hf'].
    + exists f. split; [left|]. repeat split.
      intros Ht. apply nullish_not_truthy in Ht. congruence.
    + apply IH in Hf' as (f0 & Hf0 & Hsame). exists f0. split; [by right|done].
    + exists f. split; [left|]. by repeat split.
    + apply IH in Hf' as (f0 & Hf0 & Hsame). exists f0. split; [by right|done].
Qed.




Ltac show_tidy :=
  split;
  [ reflexivity
  | let Hg := fresh "Hg" in
    intros ? Hg;
    first [ discriminate Hg | injection Hg as <-; first [ exact I | by eexists ] ] ].

Ltac show_plain :=
  split; [ show_tidy | eexists; split; [ reflexivity | compute_done ] ].

(** ** Viewport feature sync *)

Section sync_claims.
Import SyncApp.

(** C3. A viewport fetch that fails with a transport error or a non-success
    HTTP status leaves the data of the rendered source and the feature set
    of the drawing widget exactly as they were, and sets the status to the
    failure message. *)
Theorem failed_fetch_leaves_layers (E : Env) (o : FetchOutcome) (s : State) :
  request_failed o = true →
  rendered (exec (fetchFeaturesForView E o) s) = rendered s ∧
  editable (exec (fetchFeaturesForView E o) s) = editable s ∧
  status (exec (fetchFeaturesForView E o) s) = "Failed to load viewport features".
Proof.
  intros Hfail.
  destruct (fetch_failed E o s) as [errs Hrun]; [by right; left|].
  unfold exec. rewrite Hrun. simpl.
  unfold rendered, editable. simpl. done.
Qed.

Lemma failed_fetch_leaves_layers_witness :
  let o := FetchResponse 500 (JsonParsed (JVObj (FeatureCollection [unnamed_point]))) in
  request_failed o = true ∧
  rendered (exec (fetchFeaturesForView frozen_env o) drawn_page) = rendered drawn_page ∧
  editable (exec (fetchFeaturesForView frozen_env o) drawn_page) = editable drawn_page ∧
  status (exec (fetchFeaturesForView frozen_env o) drawn_page)
  = "Failed to load viewport features".
Proof.
  split; [reflexivity|].
  apply (failed_fetch_leaves_layers frozen_env
           (FetchResponse 500 (JsonParsed (JVObj (FeatureCollection [unnamed_point]))))
           drawn_page).
  reflexivity.
Defined.

(** C9. On a response with a success status whose JSON body has no features
    array, the rendered source's data has been replaced by that body when
    the final status line throws: the run ends with the failure status and
    a mutated rendered layer (and a drawing widget emptied on the way). *)
Theorem missing_features_mutates_rendered (E : Env) (s : State) (st : Z) (o : Obj)
    (m : MapObj) (r : Ref) :
  ok st = true →
  obj_features o = None →
  mapRef s = Some m →
  source m = Some r →
  let s' := exec (fetchFeaturesForView E (FetchResponse st (JsonParsed (JVObj o)))) s in
  rendered s' = Some (JVObj o) ∧
  status s' = "Failed to load viewport features" ∧
  editable s' = [].
Proof.
  intros Hok Ho Hm Hr. unfold exec.
  rewrite (fetch_without_features E s st o m Hok Ho Hm). simpl.
  unfold rendered, editable, map_with_data. simpl. rewrite Hr. simpl.
  split; [|split; [done|]].
  - by rewrite list_lookup_middle.
  - destruct (drawRef s) as [d|]; simpl; [apply delete_each_own | done].
Qed.

Lemma missing_features_mutates_rendered_witness :
  let o := {| obj_type := Some "FeatureCollection"; obj_features := None |} in
  let s' := exec (fetchFeaturesForView frozen_env (FetchResponse 200 (JsonParsed (JVObj o))))
                 drawn_page in
  rendered drawn_page ≠ Some (JVObj o) ∧
  rendered s' = Some (JVObj o) ∧
  status s' = "Failed to load viewport features" ∧
  editable s' = [].
Proof.
  split; [discriminate|].
  apply (missing_features_mutates_rendered frozen_env drawn_page 200
           {| obj_type := Some "FeatureCollection"; obj_features := None |}
           {| bounds := sample_bounds; source := Some (RefObj 0) |} (RefObj 0));
    reflexivity.
Defined.

(** C4, as the code has it. On the synchronised page, after a create,
    update or delete event of the drawing widget the data of the rendered
    "features" source is the widget's entire current feature set; the
    handler sends nothing and changes neither the widget nor the status.
    On the planner page the handlers of the three events only write the
    status line with the number of features: that page has no "features"
    source to mirror into. *)
Theorem draw_event_mirror (s : State) (m : MapObj) (r : Ref) (d : Draw.Store) :
  mapRef s = Some m →
  source m = Some r →
  drawRef s = Some d →
  let s' := exec syncPreview s in
  rendered s' = Some (JVObj (FeatureCollection (Draw.getAll d))) ∧
  rendered_features s' = editable s' ∧
  editable s' = editable s ∧
  trace s' = trace s ∧
  status s' = status s ∧
  ∀ p : PlannerApp.State,
    exec PlannerApp.on_draw_create p
    = PlannerApp.set_status ("Drawn " +:+ PlannerApp.count p +:+ " objects") p ∧
    exec PlannerApp.on_draw_update p
    = PlannerApp.set_status ("Updated " +:+ PlannerApp.count p +:+ " objects") p ∧
    exec PlannerApp.on_draw_delete p
    = PlannerApp.set_status (PlannerApp.count p +:+ " objects remaining") p ∧
    planner_source_data "features" (exec PlannerApp.on_draw_create p) = None ∧
    planner_source_data "features" (exec PlannerApp.on_draw_update p) = None ∧
    planner_source_data "features" (exec PlannerApp.on_draw_delete p) = None.
Proof.
  intros Hm Hr Hd.
  destruct s as [st0 mr dr h c tr]; simpl in Hm, Hd; subst.
  unfold exec, syncPreview, alloc, setData, bind, gets, modify, rendered_features,
    rendered, editable.
  simpl. rewrite Hr. simpl.
  rewrite list_lookup_middle by done. done.
Qed.

Lemma draw_event_mirror_witness :
  let s' := exec syncPreview drawn_page in
  rendered s' = Some (JVObj (FeatureCollection [named_point])) ∧
  rendered_features s' = editable s' ∧
  editable s' = editable drawn_page ∧
  trace s' = trace drawn_page ∧
  status s' = status drawn_page ∧
  exec PlannerApp.on_draw_create planner_drawn
  = PlannerApp.set_status "Drawn 1 objects" planner_drawn.
Proof.
  destruct (draw_event_mirror drawn_page
              {| bounds := sample_bounds; source := Some (RefObj 0) |} (RefObj 0)
              {| Draw.features := [named_point]; Draw.generated := 0 |}
              eq_refl eq_refl eq_refl)
    as (Hr & Hrf & He & Ht & Hs & Hp).
  do 5 (split; [assumption|]).
  by destruct (Hp planner_drawn) as (Hc & _).
Defined.

(** The mirror of the specification fails on the planner page: after the
    handler of [draw.create] the widget holds a feature and no "features"
    source shows it. *)
Lemma planner_mirror_counterexample :
  ¬ planner_mirror_contract PlannerApp.on_draw_create planner_drawn.
Proof. unfold planner_mirror_contract. discriminate. Qed.







(** C6. [saveToBackend] sends the widget's entire current feature set as the
    body of a POST to the save endpoint, an empty collection when nothing is
    drawn, and on a success status runs [fetchFeaturesForView] for the
    current viewport. *)
Theorem save_sends_whole_set (E : Env) (po fo : FetchOutcome) (s : State) (d : Draw.Store) :
  drawRef s = Some d →
  let payload := FeatureCollection (Draw.getAll d) in
  let s' := exec (saveToBackend E po fo) s in
  (∃ rest, trace s' = trace s ++ EPost save_url payload :: rest) ∧
  (Draw.getAll d = [] →
   ∃ rest, trace s' = trace s ++ EPost save_url (FeatureCollection []) :: rest) ∧
  (∀ st b, po = FetchResponse st b → ok st = true →
     s' = exec (fetchFeaturesForView E fo)
            (set_status "Saved to backend"
               (set_trace (trace s ++ [EPost save_url payload])
                  (set_status "Saving to backend..." s))) ∧
     ∀ m, mapRef s = Some m →
       ∃ rest, trace s' = trace s ++ EPost save_url payload
                            :: EFetch (features_url (bbox_of m)) :: rest).
Proof.
  intros Hd payload s'.
  assert (Hok : ∀ st b, po = FetchResponse st b → ok st = true →
     s' = exec (fetchFeaturesForView E fo)
            (set_status "Saved to backend"
               (set_trace (trace s ++ [EPost save_url payload])
                  (set_status "Saving to backend..." s)))).
  { intros st b -> Hst. unfold s', exec, saveToBackend.
    unfold bind at 1. unfold gets at 1. rewrite Hd.
    unfold bind at 1. unfold setStatus at 1, modify at 1.
    unfold try_catch at 1.
    unfold bind at 1. unfold emit at 1, modify at 1.
    unfold bind at 1. unfold await, ret at 1.
    unfold bind at 1. cbn [fst snd]. rewrite Hst. cbn [negb]. unfold ret at 1.
    unfold bind at 1. unfold setStatus at 1, modify at 1.
    fold payload.
    change (trace (set_status "Saving to backend..." s)) with (trace s).
    destruct (fetch_runs E fo
                (set_status "Saved to backend"
                   (set_trace (trace s ++ [EPost save_url payload])
                      (set_status "Saving to backend..." s)))) as (s1 & rest & Hrun & _).
    rewrite Hrun. done. }
  assert (Hsent : ∃ rest, trace s' = trace s ++ EPost save_url payload :: rest).
  { destruct po as [|st b].
    - exists [EConsoleError "Save failed:" NetworkError; EAlert "Save failed — check console"].
      unfold s', exec, saveToBackend, bind, gets. rewrite Hd.
      unfold try_catch, setStatus, emit, console_error, alert, emit, await, modify, throw.
      simpl. by rewrite <-!app_assoc.
    - destruct (ok st) eqn:Hst.
      + rewrite (Hok st b eq_refl Hst).
        destruct (fetch_runs E fo
                (set_status "Saved to backend"
                   (set_trace (trace s ++ [EPost save_url payload])
                      (set_status "Saving to backend..." s)))) as (s1 & rest & Hrun & Htr).
        unfold exec. rewrite Hrun. simpl. rewrite Htr. simpl.
        rewrite <-app_assoc. simpl. eauto.
      + exists [EConsoleError "Save failed:" (Error ("HTTP " +:+ pretty st));
                EAlert "Save failed — check console"].
        unfold s', exec, saveToBackend, bind, gets. rewrite Hd.
        unfold try_catch, setStatus, emit, console_error, alert, emit, await, modify,
          throw, ret.
        cbn [fst snd]. rewrite Hst. simpl. by rewrite <-!app_assoc. }
  split; [done|]. split.
  - intros Hempty. unfold payload in Hsent. by rewrite Hempty in Hsent.
  - intros st b Hpo Hst. split; [by eapply Hok|].
    intros m Hm. rewrite (Hok st b Hpo Hst).
    destruct (fetch_runs E fo
                (set_status "Saved to backend"
                   (set_trace (trace s ++ [EPost save_url payload])
                      (set_status "Saving to backend..." s)))) as (s1 & rest & Hrun & Htr).
    unfold exec. rewrite Hrun. simpl. rewrite Htr. simpl. rewrite Hm.
    rewrite <-app_assoc. simpl. eauto.
Qed.

Lemma save_sends_whole_set_witness :
  let s' := exec (saveToBackend frozen_env (FetchResponse 200 JsonSyntaxError)
                    (FetchResponse 200 (JsonParsed (JVObj (FeatureCollection [unnamed_point])))))
                 drawn_page in
  ∃ rest, trace s' = trace drawn_page
                     ++ EPost save_url (FeatureCollection [named_point]) :: rest.
Proof.
  apply (save_sends_whole_set frozen_env (FetchResponse 200 JsonSyntaxError)
           (FetchResponse 200 (JsonParsed (JVObj (FeatureCollection [unnamed_point]))))
           drawn_page {| Draw.features := [named_point]; Draw.generated := 0 |}).
  reflexivity.
Defined.

End sync_claims.

(** ** The planner page *)

Section planner_claims.
Import PlannerApp.







(** C8. With nothing drawn [handleExport] only writes the status saying there
    is nothing to export: no file, no other change. With something drawn it
    offers the whole set as a download named after the current scenario. *)
Theorem export_gate (s : State) (d : Draw.Store) :
  drawRef s = Some d →
  (Draw.getAll d = [] →
     exec handleExport s = set_status "No features to export" s ∧
     trace (exec handleExport s) = trace s) ∧
  (Draw.getAll d ≠ [] →
     exec handleExport s
     = set_status ("Exported " +:+ pretty (length (Draw.getAll d)) +:+ " features")
         (set_trace
            (trace s ++ [EDownload (export_name (currentScenario s))
                                   (FeatureCollection (Draw.getAll d))]) s) ∧
     trace (exec handleExport s)
     = trace s ++ [EDownload (export_name (currentScenario s))
                             (FeatureCollection (Draw.getAll d))] ∧
     editable (exec handleExport s) = editable s).
Proof.
  intros Hd. split; intros Hfs.
  - assert (Hrun : exec handleExport s = set_status "No features to export" s).
    { unfold exec, handleExport, bind, gets. rewrite Hd, Hfs. done. }
    rewrite Hrun. done.
  - assert (Hrun : exec handleExport s
     = set_status ("Exported " +:+ pretty (length (Draw.getAll d)) +:+ " features")
         (set_trace
            (trace s ++ [EDownload (export_name (currentScenario s))
                                   (FeatureCollection (Draw.getAll d))]) s)).
    { unfold exec, handleExport, bind, gets. rewrite Hd.
      rewrite bool_decide_eq_false_2 by (by destruct (Draw.getAll d)).
      done. }
    rewrite Hrun. done.
Qed.

Lemma export_gate_witness :
  exec handleExport mounted = set_status "No features to export" mounted ∧
  trace (exec handleExport planner_drawn)
  = [EDownload "tenom-plan-Master Plan.geojson" (FeatureCollection [named_point])].
Proof.
  destruct (export_gate mounted Draw.empty eq_refl) as [Hzero _].
  destruct (Hzero eq_refl) as (Hrun & _).
  destruct (export_gate planner_drawn
              {| Draw.features := [named_point]; Draw.generated := 0 |} eq_refl)
    as [_ Hsome].
  destruct (Hsome ltac:(discriminate)) as (_ & Htr & _).
  split; [exact Hrun|exact Htr].
Defined.

(** C10. Creating a scenario under a new, non-empty name, and switching to
    any scenario, empty the drawing widget and drop the analysis result
    without sending or offering anything; creating a scenario under a name
    that exists, under the empty name, or cancelling the prompt, changes
    nothing. *)
Theorem scenario_change_discards (s : State) :
  (∀ name, name ≠ EmptyString → name ∉ scenarios s →
     let s' := exec (createNewScenario (Some name)) s in
     editable s' = [] ∧ analysisData s' = None ∧ trace s' = trace s ∧
     scenarios s' = scenarios s ++ [name] ∧ currentScenario s' = name) ∧
  (∀ scenario,
     let s' := exec (switchScenario scenario) s in
     editable s' = [] ∧ analysisData s' = None ∧ trace s' = trace s ∧
     scenarios s' = scenarios s ∧ currentScenario s' = scenario) ∧
  (∀ name, name ∈ scenarios s → exec (createNewScenario (Some name)) s = s) ∧
  exec (createNewScenario (Some EmptyString)) s = s ∧
  exec (createNewScenario None) s = s.
Proof.
  split; [|split; [|split; [|split]]].
  - intros name Hne Hnew.
    assert (Hrun : exec (createNewScenario (Some name)) s
                   = set_status ("New scenario: " +:+ name)
                       (set_analysisData None
                          (set_drawRef (Draw.deleteAll <$> drawRef s)
                             (set_currentScenario name
                                (set_scenarios (scenarios s ++ [name]) s))))).
    { unfold exec, createNewScenario, bind, gets.
      by rewrite (bool_decide_eq_false_2 _ Hne), (bool_decide_eq_false_2 _ Hnew). }
    simpl. rewrite Hrun. unfold editable. simpl.
    by destruct (drawRef s).
  - intros scenario. unfold editable. simpl. by destruct (drawRef s).
  - intros name Hin. unfold exec, createNewScenario, bind, gets.
    rewrite (bool_decide_eq_true_2 _ Hin). simpl. by rewrite andb_false_r.
  - done.
  - done.
Qed.

Lemma scenario_change_discards_witness :
  editable planner_drawn = [named_point] ∧
  editable (exec (createNewScenario (Some "Flood Plan")) planner_drawn) = [] ∧
  editable (exec (switchScenario "Sustainable Vision") planner_drawn) = [] ∧
  exec (createNewScenario (Some "Master Plan")) planner_drawn = planner_drawn.
Proof.
  destruct (scenario_change_discards planner_drawn) as (Hnew & Hswitch & Hknown & _).
  split; [reflexivity|]. split; [|split].
  - apply (Hnew "Flood Plan"); compute_done.
  - apply (Hswitch "Sustainable Vision").
  - apply (Hknown "Master Plan"). compute_done.
Defined.

End planner_claims.

(** ** Worked runs *)

(** Two features that receive the same synthesized id end up as one feature
    of the widget: the second [draw.add] updates the first. *)
Example colliding_ids_merge :
  length (SyncApp.editable
            (exec (SyncApp.fetchFeaturesForView frozen_env
                     (SyncApp.FetchResponse 200
                        (JsonParsed (JVObj (FeatureCollection [unnamed_point; unnamed_point])))))
                  loaded_page)) = 1.
Proof. reflexivity. Qed.

(** A file whose second feature the widget rejects: the widget has been
    cleared, holds the first feature only, and the file is reported as
    invalid. *)
Example rejected_import_is_partial :
  let s' := exec (PlannerApp.handleImport frozen_env
                    (Some (JsonParsed (JVObj (FeatureCollection
                       [named_point; unnamed_without_geometry; unnamed_point])))))
                 PlannerApp.mounted in
  PlannerApp.editable s' = [named_point] ∧
  PlannerApp.status s' = "Error: Invalid GeoJSON file".
Proof. split; reflexivity. Qed.

(** A file holding a JSON object without features: nothing is reported and
    the widget keeps what it held. *)
Example unrecognised_import_is_silent :
  exec (PlannerApp.handleImport frozen_env
          (Some (JsonParsed (JVObj {| obj_type := None; obj_features := None |}))))
       planner_drawn
  = planner_drawn.
Proof. reflexivity. Qed.

(** On the planner page the handlers of the drawing events only write the
    status line. *)
Lemma planner_draw_events_status_only (s : PlannerApp.State) :
  exec PlannerApp.on_draw_create s
  = PlannerApp.set_status ("Drawn " +:+ PlannerApp.count s +:+ " objects") s ∧
  exec PlannerApp.on_draw_update s
  = PlannerApp.set_status ("Updated " +:+ PlannerApp.count s +:+ " objects") s ∧
  exec PlannerApp.on_draw_delete s
  = PlannerApp.set_status (PlannerApp.count s +:+ " objects remaining") s.
Proof. done. Qed.

(** The first load: the source is added, then the viewport is fetched. *)
Example first_load :
  let s' := exec (SyncApp.onLoad ticking_env
                    (SyncApp.FetchResponse 200
                       (JsonParsed (JVObj (FeatureCollection [named_point])))))
                 (SyncApp.mounted sample_bounds) in
  SyncApp.status s' = "Loaded 1 features" ∧
  SyncApp.editable s' = [named_point] ∧
  SyncApp.trace s' = [EFetch "http://localhost:8000/api/features?bbox=115.8,5,116,5.2"].
Proof. repeat split; reflexivity. Qed.

(** * Further properties *)

(** ** The viewport sync beyond its contract *)

Section sync_more.
Import SyncApp.

Lemma fetch_failed_logged (E : Env) (o : FetchOutcome) (s : State) :
  mapRef s = None ∨ request_failed o = true ∨ (∃ st, o = FetchResponse st JsonSyntaxError) →
  ∃ e,
    fetchFeaturesForView E o s
    = (Ok tt,
       {| status := "Failed to load viewport features";
          mapRef := mapRef s;
          drawRef := drawRef s;
          heap := heap s;
          clock := clock s;
          trace := trace s ++
            match mapRef s with
            | Some m => [EFetch (features_url (bbox_of m))]
            | None => []
            end ++ [EConsoleError "fetchFeaturesForView error:" e] |}).
Proof.
  intros Hfail.
  destruct s as [st0 mr dr h c tr].
  unfold fetchFeaturesForView, features_length, get_features, setStatus, console_error,
    emit, await, res_json, alloc, setData, draw_getAll, bboxFromMap.
  unfold bind, try_catch at 1, modify, gets, ret, throw.
  destruct mr as [m|]; simpl.
  - destruct Hfail as [[=]|Hfail].
    destruct o as [|st b]; simpl.
    + eexists. unfold set_trace, set_status; simpl. rewrite <-app_assoc. simpl. done.
    + destruct (ok st) eqn:Hok; simpl.
      * destruct Hfail as [Hfail|[st' [= -> ->]]].
        { simpl in Hfail. by rewrite Hok in Hfail. }
        eexists. unfold set_trace, set_status; simpl. rewrite <-app_assoc. simpl. done.
      * eexists. unfold set_trace, set_status; simpl. rewrite <-app_assoc. simpl. done.
  - eexists. unfold set_trace, set_status; simpl. done.
Qed.

(** X1. [fetchFeaturesForView] never lets an exception escape, whatever the
    request resolves to.  It sends the one request for the current viewport
    when there is a map and nothing when there is none.  It ends with the
    failure status exactly when it has logged an error, which it does at
    most once. *)
Theorem sync_ends_loaded_or_failed (E : Env) (o : FetchOutcome) (s : State) :
  ∃ s', fetchFeaturesForView E o s = (Ok tt, s') ∧
    let sent := match mapRef s with
                | Some m => [EFetch (features_url (bbox_of m))]
                | None => []
                end in
    ((status s' ≠ "Failed to load viewport features" ∧
      trace s' = trace s ++ sent)
     ∨
     (status s' = "Failed to load viewport features" ∧
      ∃ e, trace s' = trace s ++ sent ++ [EConsoleError "fetchFeaturesForView error:" e])).
Proof.
  destruct (mapRef s) as [m|] eqn:Hm.
  - destruct o as [|st b].
    { destruct (fetch_failed_logged E FetchRejected s) as [e ->]; [by right; left|].
      rewrite Hm. eexists; split; [done|]. right. split; [done|]. by eexists. }
    destruct (ok st) eqn:Hok.
    2:{ destruct (fetch_failed_logged E (FetchResponse st b) s) as [e ->].
        { right; left. simpl. by rewrite Hok. }
        rewrite Hm. eexists; split; [done|]. right. split; [done|]. by eexists. }
    destruct b as [|[|o]].
    + destruct (fetch_failed_logged E (FetchResponse st JsonSyntaxError) s) as [e ->].
      { right; right. by eexists. }
      rewrite Hm. eexists; split; [done|]. right. split; [done|]. by eexists.
    + rewrite (fetch_null_body E s st m Hok Hm).
      eexists; split; [done|]. right. split; [done|]. by eexists.
    + destruct (obj_features o) as [fs|] eqn:Ho.
      * destruct (drawRef s) as [d|] eqn:Hd.
        -- rewrite (fetch_success E s st o fs m d Hok Ho Hm Hd).
           eexists; split; [done|]. left. split; [|done]. simpl. discriminate.
        -- rewrite (fetch_success_no_widget E s st o fs m Hok Ho Hm Hd).
           eexists; split; [done|]. left. split; [|done]. simpl. discriminate.
      * rewrite (fetch_without_features E s st o m Hok Ho Hm).
        eexists; split; [done|]. right. split; [done|]. by eexists.
  - destruct (fetch_failed_logged E o s) as [e ->]; [by left|].
    rewrite Hm. eexists; split; [done|]. right. split; [done|]. by eexists.
Qed.

(** X2. A successful response with an empty features array empties the
    drawing widget, whatever it held, puts the response into the rendered
    source as it came, and reports "Loaded 0 features". *)
Theorem empty_response_clears (E : Env) (s : State) (st : Z) (o : Obj)
    (m : MapObj) (r : Ref) (d : Draw.Store) :
  ok st = true →
  obj_features o = Some [] →
  mapRef s = Some m →
  source m = Some r →
  drawRef s = Some d →
  let s' := exec (fetchFeaturesForView E (FetchResponse st (JsonParsed (JVObj o)))) s in
  editable s' = [] ∧
  rendered s' = Some (JVObj o) ∧
  status s' = "Loaded 0 features" ∧
  clock s' = clock s.
Proof.
  intros Hok Ho Hm Hr Hd. unfold exec.
  rewrite (fetch_success E s st o [] m d Hok Ho Hm Hd). simpl.
  unfold rendered, editable, map_with_data. simpl. rewrite Hr. simpl.
  split; [apply delete_each_own|]. split; [|split; [done|]].
  - rewrite list_lookup_middle by done. simpl.
    destruct o as [ty ofs]; simpl in *; by subst.
  - unfold lacking. simpl. lia.
Qed.

Lemma empty_response_clears_witness :
  let s' := exec (fetchFeaturesForView frozen_env
                    (FetchResponse 200 (JsonParsed (JVObj (FeatureCollection [])))))
                 drawn_page in
  editable drawn_page = [named_point] ∧
  editable s' = [] ∧
  rendered s' = Some (JVObj (FeatureCollection [])) ∧
  status s' = "Loaded 0 features" ∧
  clock s' = clock drawn_page.
Proof.
  split; [reflexivity|].
  apply (empty_response_clears frozen_env drawn_page 200 (FeatureCollection [])
           {| bounds := sample_bounds; source := Some (RefObj 0) |} (RefObj 0)
           {| Draw.features := [named_point]; Draw.generated := 0 |});
    reflexivity.
Defined.

(** X3. A response whose body is not JSON leaves the rendered source and the
    drawing widget exactly as they were and ends with the failure status,
    also under a success status. *)
Theorem unparsable_body_leaves_layers (E : Env) (st : Z) (s : State) :
  let s' := exec (fetchFeaturesForView E (FetchResponse st JsonSyntaxError)) s in
  rendered s' = rendered s ∧
  editable s' = editable s ∧
  status s' = "Failed to load viewport features".
Proof.
  destruct (fetch_failed_logged E (FetchResponse st JsonSyntaxError) s) as [e Hrun].
  { right; right. by eexists. }
  unfold exec. rewrite Hrun. done.
Qed.

(** X4. A successful response whose body is the JSON document [null] is
    handed to the rendered source, empties the drawing widget, and only
    then fails on reading [features]: the run ends with the failure
    status. *)
Theorem null_body_mutates_both_layers (E : Env) (s : State) (st : Z)
    (m : MapObj) (r : Ref) :
  ok st = true →
  mapRef s = Some m →
  source m = Some r →
  let s' := exec (fetchFeaturesForView E (FetchResponse st (JsonParsed JVNull))) s in
  rendered s' = Some JVNull ∧
  editable s' = [] ∧
  heap s' = heap s ∧
  status s' = "Failed to load viewport features".
Proof.
  intros Hok Hm Hr. unfold exec.
  rewrite (fetch_null_body E s st m Hok Hm). simpl.
  unfold rendered, editable, map_with_data. simpl. rewrite Hr. simpl.
  split; [done|]. split; [|done].
  destruct (drawRef s) as [d|]; simpl; [apply delete_each_own | done].
Qed.

Lemma null_body_mutates_both_layers_witness :
  let s' := exec (fetchFeaturesForView frozen_env (FetchResponse 200 (JsonParsed JVNull)))
                 drawn_page in
  editable drawn_page = [named_point] ∧
  rendered s' = Some JVNull ∧
  editable s' = [] ∧
  heap s' = heap drawn_page ∧
  status s' = "Failed to load viewport features".
Proof.
  split; [reflexivity|].
  apply (null_body_mutates_both_layers frozen_env drawn_page 200
           {| bounds := sample_bounds; source := Some (RefObj 0) |} (RefObj 0));
    reflexivity.
Defined.

(** X5. What the drawing widget held before a successful sync has no
    influence on what it holds afterwards: two pages that agree on the
    clock of synthesized ids and on the widget's count of generated ids end
    with the same widget, whatever their widgets held. *)
Theorem sync_forgets_previous_features (E : Env) (s1 s2 : State) (st : Z) (o : Obj)
    (fs : list Feature) (m1 m2 : MapObj) (d1 d2 : Draw.Store) :
  ok st = true →
  obj_features o = Some fs →
  mapRef s1 = Some m1 → mapRef s2 = Some m2 →
  drawRef s1 = Some d1 → drawRef s2 = Some d2 →
  clock s1 = clock s2 →
  Draw.generated d1 = Draw.generated d2 →
  drawRef (exec (fetchFeaturesForView E (FetchResponse st (JsonParsed (JVObj o)))) s1)
  = drawRef (exec (fetchFeaturesForView E (FetchResponse st (JsonParsed (JVObj o)))) s2).
Proof.
  intros Hok Ho Hm1 Hm2 Hd1 Hd2 Hc Hg. unfold exec.
  rewrite (fetch_success E s1 st o fs m1 d1 Hok Ho Hm1 Hd1).
  rewrite (fetch_success E s2 st o fs m2 d2 Hok Ho Hm2 Hd2). simpl.
  fold (cleared d1). fold (cleared d2).
  by rewrite !cleared_is_empty_store, Hc, Hg.
Qed.

Lemma sync_forgets_previous_features_witness :
  let o := FeatureCollection [unnamed_point; named_point] in
  editable loaded_page ≠ editable drawn_page ∧
  drawRef (exec (fetchFeaturesForView ticking_env
                   (FetchResponse 200 (JsonParsed (JVObj o)))) loaded_page)
  = drawRef (exec (fetchFeaturesForView ticking_env
                   (FetchResponse 200 (JsonParsed (JVObj o)))) drawn_page).
Proof.
  split; [discriminate|].
  apply (sync_forgets_previous_features ticking_env loaded_page drawn_page 200
           (FeatureCollection [unnamed_point; named_point]) [unnamed_point; named_point]
           {| bounds := sample_bounds; source := Some (RefObj 0) |}
           {| bounds := sample_bounds; source := Some (RefObj 0) |}
           Draw.empty {| Draw.features := [named_point]; Draw.generated := 0 |});
    reflexivity.
Defined.

End sync_more.

Section sync_widget.
Import SyncApp.

(** X6. A successful sync never invents a feature.  The drawing widget
    holds no more features afterwards than the response has; and when the
    response features are tidy (an object for properties, well-formed
    coordinates), everything it holds has the geometry and the properties
    of a response feature.  This holds also when the widget rejects
    features or ids coincide. *)
Theorem sync_adds_only_response_features (E : Env) (s : State) (st : Z) (o : Obj)
    (fs : list Feature) (m : MapObj) (d : Draw.Store) :
  ok st = true →
  obj_features o = Some fs →
  mapRef s = Some m →
  drawRef s = Some d →
  Forall tidy fs →
  let s' := exec (fetchFeaturesForView E (FetchResponse st (JsonParsed (JVObj o)))) s in
  (∀ g, g ∈ editable s' → ∃ f, f ∈ fs ∧ same_content f g) ∧
  (length (editable s') ≤ length fs)%nat.
Proof.
  intros Hok Ho Hm Hd _. unfold exec.
  rewrite (fetch_success E s st o fs m d Hok Ho Hm Hd). simpl.
  unfold editable. simpl. fold (cleared d). rewrite cleared_is_empty_store.
  unfold Draw.getAll. split.
  - intros g Hg. apply add_all_elem in Hg as [Hg|(f' & n & Hf' & ->)].
    { by apply elem_of_nil in Hg. }
    apply assign_ids_elem in Hf' as (f & Hf & Hg & Hp & Hid).
    exists f. split; [done|].
    unfold same_content. by rewrite key_geometry, key_properties.
  - etrans; [apply add_all_length|]. simpl. by rewrite assign_ids_length.
Qed.

Lemma sync_adds_only_response_features_witness :
  let fs := [unnamed_point; unnamed_without_geometry; unnamed_point] in
  let s' := exec (fetchFeaturesForView frozen_env
                    (FetchResponse 200 (JsonParsed (JVObj (FeatureCollection fs)))))
                 drawn_page in
  length (editable s') = 1 ∧
  (∀ g, g ∈ editable s' → ∃ f, f ∈ fs ∧ same_content f g) ∧
  (length (editable s') ≤ length fs)%nat.
Proof.
  split; [reflexivity|].
  apply (sync_adds_only_response_features frozen_env drawn_page 200
           (FeatureCollection [unnamed_point; unnamed_without_geometry; unnamed_point])
           [unnamed_point; unnamed_without_geometry; unnamed_point]
           {| bounds := sample_bounds; source := Some (RefObj 0) |}
           {| Draw.features := [named_point]; Draw.generated := 0 |});
    try reflexivity.
  repeat (constructor; [show_tidy|]). constructor.
Defined.

Lemma truthy_keeps_ids (E : Env) (k : nat) (fs : list Feature) :
  Forall (λ f, truthy (feat_id f) = true) fs →
  assign_ids E k fs = fs ∧ lacking fs = 0.
Proof.
  unfold lacking. induction fs as [|f fs IH]; intros Hall; [done|].
  apply Forall_cons in Hall as [Hf Hall]. destruct (IH Hall) as [IH1 IH2].
  simpl. rewrite (nullish_not_truthy _ Hf).
  rewrite filter_cons_False by (rewrite (nullish_not_truthy _ Hf); done).
  by rewrite IH1.
Qed.

Lemma truthy_keeps_keys (E : Env) (n : nat) (fs : list Feature) :
  Forall (λ f, truthy (feat_id f) = true) fs → keyed E n fs = fs.
Proof.
  revert n. induction fs as [|f fs IH]; intros n Hall; [done|].
  apply Forall_cons in Hall as [Hf Hall].
  simpl. unfold Draw.generated_after. rewrite key_truthy, Hf by done.
  by rewrite IH.
Qed.

(** A widget that is handed its own well-kept features after having been
    emptied holds them again. *)
Lemma refill_well_kept (E : Env) (n : nat) (fs : list Feature) :
  Forall (λ f, Draw.supported f = true) fs →
  Forall (λ f, truthy (feat_id f) = true) fs →
  NoDup (feat_id <$> fs) →
  Draw.features (foldl (add_swallow E) {| Draw.features := []; Draw.generated := n |} fs)
  = fs.
Proof.
  intros Hs Ht Hnd.
  rewrite (add_all_fresh E fs [] n Hs); simpl; by rewrite truthy_keeps_keys.
Qed.

Lemma save_ok_run (E : Env) (st : Z) (b : JsonOutcome) (fo : FetchOutcome)
    (s : State) (d : Draw.Store) :
  drawRef s = Some d →
  ok st = true →
  exec (saveToBackend E (FetchResponse st b) fo) s
  = exec (fetchFeaturesForView E fo)
      (set_status "Saved to backend"
         (set_trace (trace s ++ [EPost save_url (FeatureCollection (Draw.getAll d))])
            (set_status "Saving to backend..." s))).
Proof.
  intros Hd Hst. unfold exec, saveToBackend.
  unfold bind at 1. unfold gets at 1. rewrite Hd.
  unfold bind at 1. unfold setStatus at 1, modify at 1.
  unfold try_catch at 1.
  unfold bind at 1. unfold emit at 1, modify at 1.
  unfold bind at 1. unfold await, ret at 1.
  unfold bind at 1. cbn [fst snd]. rewrite Hst. cbn [negb]. unfold ret at 1.
  unfold bind at 1. unfold setStatus at 1, modify at 1.
  change (trace (set_status "Saving to backend..." s)) with (trace s).
  destruct (fetch_runs E fo
              (set_status "Saved to backend"
                 (set_trace (trace s ++ [EPost save_url (FeatureCollection (Draw.getAll d))])
                    (set_status "Saving to backend..." s)))) as (s1 & rest & Hrun & _).
  rewrite Hrun. done.
Qed.

(** X7. A save that cannot proceed changes neither layer.  Without the
    widget it only alerts "Draw not ready": no request, no status.  When the
    POST is rejected or answered with a non-success status it reports
    "Save failed", logs the error and alerts once, and runs no viewport
    sync: the rendered source and the widget stay as they were. *)
Theorem failed_save_keeps_layers (E : Env) (po fo : FetchOutcome) (s : State) :
  (drawRef s = None →
     exec (saveToBackend E po fo) s = set_trace (trace s ++ [EAlert "Draw not ready"]) s) ∧
  (∀ d, drawRef s = Some d → request_failed po = true →
     let s' := exec (saveToBackend E po fo) s in
     status s' = "Save failed" ∧
     rendered s' = rendered s ∧
     editable s' = editable s ∧
     ∃ e, trace s' = trace s ++
            [EPost save_url (FeatureCollection (Draw.getAll d));
             EConsoleError "Save failed:" e;
             EAlert "Save failed — check console"]).
Proof.
  split.
  - intros Hd. unfold exec, saveToBackend, bind, gets. by rewrite Hd.
  - intros d Hd Hfail.
    destruct po as [|st b].
    + unfold exec, saveToBackend, bind, gets. rewrite Hd.
      unfold try_catch, setStatus, emit, console_error, alert, emit, await, modify, throw.
      simpl. unfold rendered, editable. simpl.
      repeat split. eexists. by rewrite <-!app_assoc.
    + simpl in Hfail. apply negb_true_iff in Hfail.
      unfold exec, saveToBackend, bind, gets. rewrite Hd.
      unfold try_catch, setStatus, emit, console_error, alert, emit, await, modify,
        throw, ret.
      cbn [fst snd]. rewrite Hfail. simpl. unfold rendered, editable. simpl.
      repeat split. eexists. by rewrite <-!app_assoc.
Qed.

Lemma failed_save_keeps_layers_witness :
  let s' := exec (saveToBackend frozen_env (FetchResponse 503 JsonSyntaxError) FetchRejected)
                 drawn_page in
  status s' = "Save failed" ∧
  rendered s' = rendered drawn_page ∧
  editable s' = editable drawn_page ∧
  ∃ e, trace s' = trace drawn_page ++
         [EPost save_url (FeatureCollection [named_point]);
          EConsoleError "Save failed:" e;
          EAlert "Save failed — check console"].
Proof.
  destruct (failed_save_keeps_layers frozen_env (FetchResponse 503 JsonSyntaxError)
              FetchRejected drawn_page) as [_ Hfail].
  apply (Hfail {| Draw.features := [named_point]; Draw.generated := 0 |}); reflexivity.
Defined.

(** X8. Save and reload is a round trip on a well-kept widget: when the POST
    succeeds and the backend then returns exactly the collection that was
    posted, the widget holds the same features as before the save, and the
    rendered source shows them. *)
Theorem save_reload_round_trip (E : Env) (st st' : Z) (b : JsonOutcome)
    (s : State) (m : MapObj) (r : Ref) (d : Draw.Store) :
  mapRef s = Some m →
  source m = Some r →
  drawRef s = Some d →
  well_kept d →
  ok st = true →
  ok st' = true →
  let echo := FetchResponse st' (JsonParsed (JVObj (FeatureCollection (Draw.getAll d)))) in
  let s' := exec (saveToBackend E (FetchResponse st b) echo) s in
  editable s' = editable s ∧
  rendered_features s' = editable s ∧
  status s' = "Loaded " +:+ pretty (length (editable s)) +:+ " features".
Proof.
  intros Hm Hr Hd (Hs & Ht & Hnd) Hst Hst'. simpl.
  rewrite (save_ok_run E st b _ s d Hd Hst). unfold exec.
  erewrite (fetch_success E _ st' (FeatureCollection (Draw.getAll d)) (Draw.getAll d) m d
              Hst' eq_refl); [|done..].
  simpl. unfold rendered_features, rendered, editable, map_with_data. simpl.
  rewrite Hr, Hd. simpl. rewrite list_lookup_middle by done. simpl.
  destruct (truthy_keeps_ids E (clock s) (Draw.getAll d) Ht) as [-> _].
  fold (cleared d). rewrite cleared_is_empty_store.
  split; [|done]. unfold Draw.getAll. by apply refill_well_kept.
Qed.

Lemma save_reload_round_trip_witness :
  let d := {| Draw.features := [named_point]; Draw.generated := 0 |} in
  let echo := FetchResponse 200 (JsonParsed (JVObj (FeatureCollection (Draw.getAll d)))) in
  let s' := exec (saveToBackend frozen_env (FetchResponse 200 JsonSyntaxError) echo)
                 drawn_page in
  editable s' = editable drawn_page ∧
  rendered_features s' = editable drawn_page ∧
  status s' = "Loaded 1 features".
Proof.
  apply (save_reload_round_trip frozen_env 200 200 JsonSyntaxError drawn_page
           {| bounds := sample_bounds; source := Some (RefObj 0) |} (RefObj 0)
           {| Draw.features := [named_point]; Draw.generated := 0 |});
    try reflexivity.
  repeat split; compute_done.
Defined.

End sync_widget.

(** ** debounce *)

Section debounce_props.
Import Debounce.
Context {A : Type}.

Lemma calls_snoc (evs : list (Event A)) (ev : Event A) :
  calls (evs ++ [ev])
  = calls evs ++ match ev with Call a => [a] | Fire _ => [] end.
Proof. unfold calls. rewrite omap_app. by destruct ev. Qed.

Lemma run_snoc (wait : N) (evs : list (Event A)) (ev : Event A) :
  run wait (evs ++ [ev]) = step wait (run wait evs) ev.
Proof. unfold run. by rewrite foldl_app. Qed.

Lemma one_pending_step (wait : N) (evs : list (Event A)) (ev : Event A) (s : State A) :
  one_pending wait evs s → one_pending wait (evs ++ [ev]) (step wait s ev).
Proof.
  intros Hinv. unfold one_pending. rewrite calls_snoc.
  destruct ev as [a'|id]; simpl.
  - right. exists (calls evs), a'. split; [done|].
    assert (Hkept : match t s with
                    | Some id => if bool_decide (id ≠ 0) then clearTimeout id (armed s)
                                 else armed s
                    | None => armed s
                    end = [] ∧ sublist (invoked s) (calls evs)).
    { destruct Hinv as [[Harmed Hsub]|(pre & a & Hcalls & Hsub & Harmed & Ht & Hne)].
      - rewrite Harmed. split; [|done].
        destruct (t s) as [id|]; [|done]. by destruct (bool_decide (id ≠ 0)).
      - rewrite Ht, Harmed, (bool_decide_eq_true_2 _ Hne). split.
        + unfold clearTimeout. by rewrite filter_cons_False, filter_nil by (simpl; auto).
        + rewrite Hcalls. by apply sublist_inserts_r. }
    destruct Hkept as [-> Hsub]. by repeat split.
  - rewrite app_nil_r. unfold fire.
    destruct Hinv as [[Harmed Hsub]|(pre & a & Hcalls & Hsub & Harmed & Ht & Hne)].
    + rewrite Harmed. simpl. by left.
    + rewrite Harmed. destruct (decide (last_id s = id)) as [<-|Hid].
      * rewrite filter_cons_True by done. left. simpl. split.
        -- unfold clearTimeout. by rewrite filter_cons_False, filter_nil by (simpl; auto).
        -- rewrite Hcalls. by apply sublist_app.
      * rewrite filter_cons_False, filter_nil by done.
        right. by exists pre, a.
Qed.

Lemma one_pending_run (wait : N) (evs : list (Event A)) :
  one_pending wait evs (run wait evs).
Proof.
  induction evs as [|ev evs IH] using rev_ind.
  - left. split; [done|]. apply sublist_nil_l.
  - rewrite run_snoc. by apply one_pending_step.
Qed.

(** X9. However calls of a debounced function and expiring timers
    interleave: at most one timer is armed at any moment, an armed timer
    carries the arguments of the latest call and the configured delay, and
    [fn] has only been invoked with arguments of earlier calls, in the order
    of the calls and at most once per call. *)
Theorem debounce_one_timer (wait : N) (evs : list (Event A)) :
  (length (armed (run wait evs)) ≤ 1)%nat ∧
  (∀ x, x ∈ armed (run wait evs) →
     last (calls evs) = Some (args x) ∧ delay x = wait) ∧
  sublist (invoked (run wait evs)) (calls evs).
Proof.
  destruct (one_pending_run wait evs)
    as [[Harmed Hsub]|(pre & a & Hcalls & Hsub & Harmed & Ht & Hne)].
  - rewrite Harmed. split; [simpl; lia|]. split; [|done].
    intros x Hx. by apply elem_of_nil in Hx.
  - rewrite Harmed. split; [simpl; lia|]. split.
    + intros x Hx. apply list_elem_of_singleton in Hx as ->. simpl.
      split; [|done]. rewrite Hcalls. apply last_snoc.
    + rewrite Hcalls. by apply sublist_inserts_r.
Qed.

Lemma burst_keeps_invoked (wait : N) (l : list A) (evs : list (Event A)) :
  invoked (run wait (evs ++ (Call <$> l))) = invoked (run wait evs).
Proof.
  induction l as [|a l IH] using rev_ind.
  - by rewrite app_nil_r.
  - rewrite fmap_app, app_assoc. simpl. rewrite run_snoc. simpl. done.
Qed.

(** X10. Trailing edge: after any history, a burst of one or more calls with
    no timer expiring in between leaves exactly one timer armed; when it
    expires [fn] is invoked once, with the arguments of the last call of the
    burst, and nothing stays armed. The earlier calls of the burst never
    reach [fn], and no other timer id does anything. *)
Theorem debounce_burst (wait : N) (evs : list (Event A)) (l : list A) (a : A) :
  let s := run wait (evs ++ (Call <$> (l ++ [a]))) in
  armed s = [{| timer_id := last_id s; delay := wait; args := a |}] ∧
  invoked (fire (last_id s) s) = invoked (run wait evs) ++ [a] ∧
  armed (fire (last_id s) s) = [] ∧
  (∀ id, id ≠ last_id s → fire id s = s).
Proof.
  simpl.
  pose proof (burst_keeps_invoked wait (l ++ [a]) evs) as Hinv.
  pose proof (one_pending_run wait (evs ++ (Call <$> (l ++ [a])))) as Hone.
  assert (Hcalls : calls (evs ++ (Call <$> (l ++ [a])))
                   = calls (evs ++ (Call <$> l)) ++ [a]).
  { rewrite fmap_app, app_assoc. simpl. by rewrite calls_snoc. }
  assert (Harmed : armed (run wait (evs ++ (Call <$> (l ++ [a])))) ≠ []).
  { rewrite fmap_app, app_assoc. simpl. rewrite run_snoc. simpl.
    intros Hnil. by apply app_nil in Hnil as [_ [=]]. }
  destruct Hone as [[Hnil _]|(pre & a' & Hc & _ & Hx & _ & _)]; [done|].
  rewrite Hcalls in Hc. apply app_inj_tail in Hc as [_ <-].
  set (s := run wait (evs ++ (Call <$> (l ++ [a])))) in *.
  split; [done|].
  unfold fire. rewrite Hx.
  rewrite filter_cons_True by done. simpl.
  split; [by rewrite Hinv|]. split.
  - unfold clearTimeout. by rewrite filter_cons_False, filter_nil by (simpl; auto).
  - intros id Hid. by rewrite filter_cons_False, filter_nil by (simpl; auto).
Qed.

End debounce_props.

(** ** The load handler and the mirror *)

Section sync_load.
Import SyncApp.

Lemma fetch_mapRef (E : Env) (o : FetchOutcome) (s : State) (m : MapObj) :
  mapRef s = Some m →
  mapRef (exec (fetchFeaturesForView E o) s) = Some m ∨
  ∃ d, mapRef (exec (fetchFeaturesForView E o) s) = Some (map_with_data m d).
Proof.
  intros Hm. unfold exec.
  destruct o as [|st b].
  { destruct (fetch_failed E FetchRejected s) as [errs ->]; [by right; left|]. by left. }
  destruct (ok st) eqn:Hok.
  2:{ destruct (fetch_failed E (FetchResponse st b) s) as [errs ->].
      { right; left. simpl. by rewrite Hok. }
      by left. }
  destruct b as [|[|o]].
  - destruct (fetch_failed E (FetchResponse st JsonSyntaxError) s) as [errs ->].
    { right; right. by eexists. }
    by left.
  - rewrite (fetch_null_body E s st m Hok Hm). right. by eexists.
  - destruct (obj_features o) as [fs|] eqn:Ho.
    + destruct (drawRef s) as [d|] eqn:Hd.
      * rewrite (fetch_success E s st o fs m d Hok Ho Hm Hd). right. by eexists.
      * rewrite (fetch_success_no_widget E s st o fs m Hok Ho Hm Hd). right. by eexists.
    + rewrite (fetch_without_features E s st o m Hok Ho Hm). right. by eexists.
Qed.

Lemma fetch_keeps_source (E : Env) (o : FetchOutcome) (s : State) :
  has_source s → has_source (exec (fetchFeaturesForView E o) s).
Proof.
  intros (m & r & Hm & Hr).
  destruct (fetch_mapRef E o s m Hm) as [Heq|[d Heq]].
  - by exists m, r.
  - exists (map_with_data m d), d. split; [done|].
    unfold map_with_data. by rewrite Hr.
Qed.

Lemma save_failed_run (E : Env) (po fo : FetchOutcome) (s : State) (d : Draw.Store) :
  drawRef s = Some d →
  request_failed po = true →
  mapRef (exec (saveToBackend E po fo) s) = mapRef s.
Proof.
  intros Hd Hfail. destruct po as [|st b].
  - unfold exec, saveToBackend, bind, gets. rewrite Hd.
    unfold try_catch, setStatus, emit, console_error, alert, emit, await, modify, throw.
    done.
  - simpl in Hfail. apply negb_true_iff in Hfail.
    unfold exec, saveToBackend, bind, gets. rewrite Hd.
    unfold try_catch, setStatus, emit, console_error, alert, emit, await, modify,
      throw, ret.
    cbn [fst snd]. rewrite Hfail. done.
Qed.

Lemma syncPreview_run (s : State) (m : MapObj) (d : Draw.Store) :
  mapRef s = Some m →
  drawRef s = Some d →
  exec syncPreview s
  = set_mapRef (Some (map_with_data m (RefObj (length (heap s)))))
      (set_heap (heap s ++ [FeatureCollection (Draw.getAll d)]) s).
Proof.
  intros Hm Hd.
  destruct s as [st0 mr dr h c tr]; simpl in Hm, Hd; subst.
  unfold exec, syncPreview, alloc, setData, bind, gets, modify, map_with_data. simpl.
  by destruct (source m).
Qed.

Lemma addSource_run (s : State) (m : MapObj) :
  mapRef s = Some m →
  exec addSource s
  = match source m with
    | Some _ => s
    | None =>
        set_mapRef (Some {| bounds := bounds m; source := Some (RefObj (length (heap s))) |})
          (set_heap (heap s ++ [FeatureCollection []]) s)
    end.
Proof.
  intros Hm. unfold exec, addSource, bind, gets. rewrite Hm.
  by destruct (source m).
Qed.

(** X11. Once the map has its "features" source, no handler takes it away:
    the viewport sync, the save, the draw-event mirror and the load handler
    all leave a page that still has it. The load handler, run on a page
    whose map has no source yet, leaves a page that has one, whatever the
    first fetch resolves to. *)
Theorem source_stays (E : Env) (s : State) :
  (has_source s →
     (∀ o, has_source (exec (fetchFeaturesForView E o) s)) ∧
     (∀ po fo, has_source (exec (saveToBackend E po fo) s)) ∧
     has_source (exec syncPreview s)) ∧
  (∀ m o, mapRef s = Some m → has_source (exec (onLoad E o) s)).
Proof.
  split.
  - intros Hsrc. split; [|split].
    + intros o. by apply fetch_keeps_source.
    + intros po fo. destruct (drawRef s) as [d|] eqn:Hd.
      * destruct (request_failed po) eqn:Hfail.
        -- destruct Hsrc as (m & r & Hm & Hr). exists m, r.
           by rewrite (save_failed_run E po fo s d Hd Hfail).
        -- destruct po as [|st b]; [done|]. simpl in Hfail.
           apply negb_false_iff in Hfail.
           rewrite (save_ok_run E st b fo s d Hd Hfail).
           apply fetch_keeps_source.
           destruct Hsrc as (m & r & Hm & Hr). by exists m, r.
      * unfold exec, saveToBackend, bind, gets. by rewrite Hd.
    + destruct Hsrc as (m & r & Hm & Hr).
      destruct (drawRef s) as [d|] eqn:Hd.
      * rewrite (syncPreview_run s m d Hm Hd). simpl.
        eexists _, _. split; [done|]. unfold map_with_data. by rewrite Hr.
      * unfold exec, syncPreview, bind, gets. rewrite Hd. by exists m, r.
  - intros m o Hm.
    assert (Hrun : exec (onLoad E o) s
                   = exec (fetchFeaturesForView E o) (exec addSource s)).
    { unfold exec, onLoad, bind.
      destruct (addSource s) as [[[]|e] s1] eqn:Hadd; [done|].
      unfold addSource, bind, gets in Hadd. rewrite Hm in Hadd.
      by destruct (source m). }
    rewrite Hrun. apply fetch_keeps_source.
    rewrite (addSource_run s m Hm).
    destruct (source m) as [r|] eqn:Hr.
    + by exists m, r.
    + by eexists _, _.
Qed.

Lemma source_stays_witness :
  has_source (exec (onLoad frozen_env FetchRejected) (mounted sample_bounds)) ∧
  has_source (exec syncPreview loaded_page) ∧
  has_source (exec (saveToBackend frozen_env FetchRejected FetchRejected) loaded_page).
Proof.
  destruct (source_stays frozen_env (mounted sample_bounds)) as [_ Hload].
  destruct (source_stays frozen_env loaded_page) as [Hkeep _].
  assert (Hsrc : has_source loaded_page).
  { exists {| bounds := sample_bounds; source := Some (RefObj 0) |}, (RefObj 0). done. }
  destruct (Hkeep Hsrc) as (_ & Hsave & Hprev).
  split; [|split].
  - by apply (Hload {| bounds := sample_bounds; source := None |}).
  - exact Hprev.
  - apply Hsave.
Defined.

(** X12. When the first fetch of the load handler fails, the rendered
    source holds the empty collection the handler created it with, the
    widget is untouched, and the status is the failure message. *)
Theorem first_load_failure_renders_nothing (E : Env) (o : FetchOutcome) (s : State)
    (m : MapObj) :
  mapRef s = Some m →
  source m = None →
  request_failed o = true →
  let s' := exec (onLoad E o) s in
  rendered s' = Some (JVObj (FeatureCollection [])) ∧
  editable s' = editable s ∧
  status s' = "Failed to load viewport features".
Proof.
  intros Hm Hr Hfail.
  assert (Hrun : exec (onLoad E o) s
                 = exec (fetchFeaturesForView E o) (exec addSource s)).
  { unfold exec, onLoad, bind.
    destruct (addSource s) as [[[]|e] s1] eqn:Hadd; [done|].
    unfold addSource, bind, gets in Hadd. rewrite Hm, Hr in Hadd. done. }
  simpl. rewrite Hrun, (addSource_run s m Hm), Hr.
  destruct (fetch_failed E o
              (set_mapRef
                 (Some {| bounds := bounds m; source := Some (RefObj (length (heap s))) |})
                 (set_heap (heap s ++ [FeatureCollection []]) s)))
    as [errs Hfetch]; [by right; left|].
  unfold exec. rewrite Hfetch. simpl.
  unfold rendered, editable. simpl.
  by rewrite list_lookup_middle.
Qed.

Lemma first_load_failure_renders_nothing_witness :
  let s' := exec (onLoad frozen_env (FetchResponse 500 JsonSyntaxError))
                 (mounted sample_bounds) in
  rendered (mounted sample_bounds) = None ∧
  rendered s' = Some (JVObj (FeatureCollection [])) ∧
  editable s' = editable (mounted sample_bounds) ∧
  status s' = "Failed to load viewport features".
Proof.
  split; [reflexivity|].
  apply (first_load_failure_renders_nothing frozen_env (FetchResponse 500 JsonSyntaxError)
           (mounted sample_bounds) {| bounds := sample_bounds; source := None |});
    reflexivity.
Defined.

(** X13. A draw event after a successful sync brings the two layers back
    into agreement: the rendered source then shows exactly what the widget
    holds, also when the sync left them apart because the widget rejected a
    feature or merged two under one id. The widget itself is not touched. *)
Theorem mirror_after_sync (E : Env) (s : State) (st : Z) (o : Obj)
    (fs : list Feature) (m : MapObj) (r : Ref) (d : Draw.Store) :
  ok st = true →
  obj_features o = Some fs →
  mapRef s = Some m →
  source m = Some r →
  drawRef s = Some d →
  let s' := exec (fetchFeaturesForView E (FetchResponse st (JsonParsed (JVObj o)))) s in
  rendered_features (exec syncPreview s') = editable (exec syncPreview s') ∧
  editable (exec syncPreview s') = editable s'.
Proof.
  intros Hok Ho Hm Hr Hd s'.
  assert (Hs' : s' = snd (fetchFeaturesForView E (FetchResponse st (JsonParsed (JVObj o))) s))
    by done.
  rewrite (fetch_success E s st o fs m d Hok Ho Hm Hd) in Hs'. simpl in Hs'.
  rewrite Hs'.
  erewrite syncPreview_run; [|simpl; reflexivity..].
  unfold rendered_features, rendered, editable, map_with_data. simpl.
  rewrite Hr. simpl. rewrite list_lookup_middle by done. done.
Qed.

Lemma mirror_after_sync_witness :
  let fs := [unnamed_point; unnamed_without_geometry; unnamed_point] in
  let s' := exec (fetchFeaturesForView frozen_env
                    (FetchResponse 200 (JsonParsed (JVObj (FeatureCollection fs)))))
                 drawn_page in
  rendered_features s' ≠ editable s' ∧
  rendered_features (exec syncPreview s') = editable (exec syncPreview s') ∧
  editable (exec syncPreview s') = editable s'.
Proof.
  split; [discriminate|].
  apply (mirror_after_sync frozen_env drawn_page 200
           (FeatureCollection [unnamed_point; unnamed_without_geometry; unnamed_point])
           [unnamed_point; unnamed_without_geometry; unnamed_point]
           {| bounds := sample_bounds; source := Some (RefObj 0) |} (RefObj 0)
           {| Draw.features := [named_point]; Draw.generated := 0 |});
    reflexivity.
Defined.

End sync_load.

(** ** The planner page beyond its contracts *)

Section planner_more.
Import PlannerApp.

Lemma get_layer_elem (k : string) (ls : list (string * Layer)) :
  k ∈ ls.*1 → ∃ l, get_layer k ls = Some l.
Proof.
  induction ls as [|[k0 l0] ls IH]; simpl; intros Hk.
  - by apply elem_of_nil in Hk.
  - destruct (decide (k0 = k)); [by eexists|].
    apply elem_of_cons in Hk as [->|Hk]; [done|]. by apply IH.
Qed.

Lemma put_layer_keys (k : string) (l l' : Layer) (ls : list (string * Layer)) :
  get_layer k ls = Some l → (put_layer k l' ls).*1 = ls.*1.
Proof.
  induction ls as [|[k0 l0] ls IH]; simpl; [done|].
  destruct (decide (k0 = k)); [done|].
  intros Hget. rewrite !fmap_cons. f_equal. by apply IH.
Qed.

Lemma get_put_layer (k k' : string) (l' : Layer) (ls : list (string * Layer)) :
  get_layer k' (put_layer k l' ls)
  = if decide (k = k') then Some l' else get_layer k' ls.
Proof.
  induction ls as [|[k0 l0] ls IH]; simpl.
  - destruct (decide (k = k')); done.
  - destruct (decide (k0 = k)) as [->|Hk0]; simpl.
    + destruct (decide (k = k')); done.
    + destruct (decide (k0 = k')) as [->|Hk0'].
      * by rewrite decide_False by done.
      * apply IH.
Qed.

Lemma put_put_layer (k : string) (l l' : Layer) (ls : list (string * Layer)) :
  get_layer k ls = Some l → put_layer k l (put_layer k l' ls) = ls.
Proof.
  induction ls as [|[k0 l0] ls IH]; simpl; [done|].
  destruct (decide (k0 = k)) as [->|Hk0]; simpl.
  - intros [= ->]. by rewrite decide_True.
  - intros Hget. rewrite decide_False by done. by rewrite IH.
Qed.

(** X14. Toggling a layer flips its visibility and nothing else: the layers
    keep their keys and order, the layer keeps its name and colour, every
    other layer is untouched, and toggling the same layer again restores
    the page exactly. *)
Theorem toggle_layer_flips (layerId : string) (s : State) :
  layerId ∈ (layers s).*1 →
  let s' := exec (toggleLayer layerId) s in
  (layers s').*1 = (layers s).*1 ∧
  visible <$> get_layer layerId (layers s')
  = negb <$> (visible <$> get_layer layerId (layers s)) ∧
  name <$> get_layer layerId (layers s') = name <$> get_layer layerId (layers s) ∧
  color <$> get_layer layerId (layers s') = color <$> get_layer layerId (layers s) ∧
  (∀ k, k ≠ layerId → get_layer k (layers s') = get_layer k (layers s)) ∧
  exec (toggleLayer layerId) s' = s.
Proof.
  - intros Hin. destruct (get_layer_elem _ _ Hin) as [l Hl].
    assert (Hrun : exec (toggleLayer layerId) s
                   = set_layers
                       (put_layer layerId
                          {| visible := negb (visible l); name := name l; color := color l |}
                          (layers s)) s).
    { unfold exec, toggleLayer, bind, gets. by rewrite Hl. }
    simpl. rewrite Hrun. simpl.
    rewrite get_put_layer, decide_True, Hl by done. simpl.
    split; [by eapply put_layer_keys|]. do 3 (split; [done|]). split.
    + intros k Hk. rewrite get_put_layer. by rewrite decide_False.
    + unfold exec, toggleLayer, bind, gets. simpl.
      rewrite get_put_layer, decide_True by done. simpl.
      rewrite negb_involutive.
      replace {| visible := visible l; name := name l; color := color l |} with l
        by (by destruct l).
      rewrite (put_put_layer _ _ _ _ Hl). by destruct s.
Qed.

Lemma toggle_layer_flips_witness :
  let s' := exec (toggleLayer "heatRisk") mounted in
  visible <$> get_layer "heatRisk" (layers s') = Some true ∧
  (layers s').*1 = ["population"; "floodRisk"; "vegetation"; "heatRisk"] ∧
  exec (toggleLayer "heatRisk") s' = mounted.
Proof.
  destruct (toggle_layer_flips "heatRisk" mounted ltac:(compute_done))
    as (Hkeys & Hvis & _ & _ & _ & Hback).
  split; [exact Hvis|]. split; [exact Hkeys|exact Hback].
Defined.

(** The import loop on any array: it hands the widget the features up to
    the first one it rejects, and throws there. *)
Lemma import_loop_any (E : Env) (fs : list Feature) :
  ∀ (i : nat) (s : State) (d : Draw.Store),
  drawRef s = Some d →
  ∃ r, forEach (λ _ feature, draw_add E feature) i fs s
       = (r, set_drawRef (Some (foldl (add_swallow E) d (accepted_prefix fs))) s) ∧
       (Forall (λ f, Draw.supported f = true) fs ↔ r = Ok tt).
Proof.
  induction fs as [|f fs IH]; intros i s d Hd.
  - exists (Ok tt). split; [|by split].
    simpl. unfold ret. f_equal. rewrite <-Hd. by destruct s.
  - simpl. unfold bind at 1. unfold draw_add at 1. rewrite Hd.
    destruct (Draw.supported f) eqn:Hf.
    + rewrite (add_supported E f d Hf).
      set (d1 := {| Draw.features :=
                      Draw.upsert (Draw.key E (Draw.generated d) f) (Draw.features d);
                    Draw.generated := Draw.generated_after (Draw.generated d) f |}).
      destruct (IH (S i) (set_drawRef (Some d1) s) d1 eq_refl) as (r & Hrun & Hr).
      exists r. rewrite Hrun. split.
      * simpl.
        assert (add_swallow E d f = d1) as ->
          by (unfold add_swallow; by rewrite (add_supported E f d Hf)).
        done.
      * rewrite Forall_cons. rewrite <-Hr. tauto.
    + destruct (add_unsupported E f d Hf) as [e He]. rewrite He.
      exists (Throw e). split.
      * simpl. f_equal. rewrite <-Hd. by destruct s.
      * split; [|done]. intros Hall. apply Forall_cons in Hall as [Hf' _]. congruence.
Qed.

(** The import of a file holding a features array, the widget being
    there. *)
Lemma import_array_run (E : Env) (s : State) (d : Draw.Store) (o : Obj)
    (fs : list Feature) :
  drawRef s = Some d →
  obj_features o = Some fs →
  handleImport E (Some (JsonParsed (JVObj o))) s
  = (Ok tt,
     set_status
       (if bool_decide (Forall (λ f, Draw.supported f = true) fs)
        then "Imported " +:+ pretty (length fs) +:+ " features"
        else "Error: Invalid GeoJSON file")
       (set_drawRef (Some (foldl (add_swallow E) (Draw.deleteAll d) (accepted_prefix fs))) s)).
Proof.
  intros Hd Ho.
  unfold handleImport, try_catch, JSON_parse, get_features.
  unfold bind at 1. unfold ret at 1.
  unfold bind at 1. unfold gets at 1. rewrite Hd.
  unfold bind at 1. unfold ret at 1. rewrite Ho.
  unfold bind at 1. unfold draw_deleteAll at 1, modify at 1.
  unfold bind at 1.
  edestruct (import_loop_any E fs 0 (set_drawRef (Draw.deleteAll <$> drawRef s) s))
    as (r & Hrun & Hr); [by rewrite Hd|].
  rewrite Hrun. destruct r as [[]|e].
  - rewrite bool_decide_eq_true_2 by (by apply Hr). done.
  - rewrite bool_decide_eq_false_2; [done|].
    intros Hall. by apply Hr in Hall.
Qed.

(** X15. Export then import is a round trip: the collection that
    [handleExport] offers for download from a well-kept widget, imported
    into any page whose widget exists, leaves that widget holding exactly
    the exported features, whatever it held before. *)
Theorem export_import_round_trip (E : Env) (s : State) (d : Draw.Store) :
  drawRef s = Some d →
  Draw.getAll d ≠ [] →
  well_kept d →
  let file := FeatureCollection (Draw.getAll d) in
  trace (exec handleExport s)
  = trace s ++ [EDownload (export_name (currentScenario s)) file] ∧
  ∀ s1 d1, drawRef s1 = Some d1 →
    let s1' := exec (handleImport E (Some (JsonParsed (JVObj file)))) s1 in
    editable s1' = editable s ∧
    status s1' = "Imported " +:+ pretty (length (editable s)) +:+ " features".
Proof.
  intros Hd Hne (Hs & Ht & Hnd) file. subst file. split.
  - unfold exec, handleExport, bind, gets. rewrite Hd.
    rewrite bool_decide_eq_false_2 by (by destruct (Draw.getAll d)).
    done.
  - intros s1 d1 Hd1 s1'. subst s1'. unfold exec.
    rewrite (import_array_run E s1 d1 (FeatureCollection (Draw.getAll d)) (Draw.getAll d)
               Hd1 eq_refl).
    rewrite bool_decide_eq_true_2 by done.
    assert (Hpre : accepted_prefix (Draw.getAll d) = Draw.getAll d).
    { unfold Draw.getAll. induction Hs as [|f fs Hf Hfs IH]; [done|].
      simpl. rewrite Hf. f_equal. apply IH.
      - by apply Forall_cons in Ht as [_ Ht].
      - by apply NoDup_cons in Hnd as [_ Hnd]. }
    unfold editable. simpl. rewrite Hd, Hpre. split; [|done].
    unfold Draw.getAll, Draw.deleteAll. by apply refill_well_kept.
Qed.

Lemma export_import_round_trip_witness :
  let d := {| Draw.features := [named_point]; Draw.generated := 0 |} in
  let file := FeatureCollection [named_point] in
  trace (exec handleExport planner_drawn)
  = [EDownload "tenom-plan-Master Plan.geojson" file] ∧
  editable (exec (handleImport frozen_env (Some (JsonParsed (JVObj file)))) mounted)
  = [named_point].
Proof.
  destruct (export_import_round_trip frozen_env planner_drawn
              {| Draw.features := [named_point]; Draw.generated := 0 |}
              eq_refl ltac:(discriminate) ltac:(repeat split; compute_done))
    as [Htr Himp].
  split; [exact Htr|].
  by destruct (Himp mounted Draw.empty eq_refl) as [Hed _].
Defined.

Lemma accepted_prefix_elem (f : Feature) (fs : list Feature) :
  f ∈ accepted_prefix fs → f ∈ fs.
Proof.
  induction fs as [|f0 fs IH]; simpl; intros Hf; [by apply elem_of_nil in Hf|].
  destruct (Draw.supported f0); [|by apply elem_of_nil in Hf].
  apply elem_of_cons in Hf as [->|Hf]; [left | right; by apply IH].
Qed.

Lemma accepted_prefix_supported (fs : list Feature) :
  Forall (λ f, Draw.supported f = true) (accepted_prefix fs).
Proof.
  induction fs as [|f fs IH]; simpl; [constructor|].
  destruct (Draw.supported f) eqn:Hf; by constructor.
Qed.

(** X16. What an import does with a features array of tidy features (an
    object for properties, well-formed coordinates), the widget being
    there: it clears the widget and hands it the features in order up to
    the first one the widget rejects (a [null] geometry or a geometry type
    it does not draw); it reports the number of features when none is
    rejected and an invalid file otherwise.  Either way the widget ends up
    holding no more than the accepted features, each with the geometry and
    the properties of one of them, and nothing of what it held before; and
    when the accepted features have single geometries and their ids, as the
    widget keys them, are their own keys, it holds exactly those, in
    order. *)
Theorem import_stops_at_rejection (E : Env) (s : State) (d : Draw.Store) (o : Obj)
    (fs : list Feature) :
  drawRef s = Some d →
  obj_features o = Some fs →
  Forall tidy fs →
  let s' := exec (handleImport E (Some (JsonParsed (JVObj o)))) s in
  (Forall (λ f, Draw.supported f = true) fs →
     status s' = "Imported " +:+ pretty (length fs) +:+ " features") ∧
  (¬ Forall (λ f, Draw.supported f = true) fs →
     status s' = "Error: Invalid GeoJSON file") ∧
  (∀ g, g ∈ editable s' → ∃ f, f ∈ accepted_prefix fs ∧ same_content f g) ∧
  (length (editable s') ≤ length (accepted_prefix fs))%nat ∧
  (Forall plain (accepted_prefix fs) →
   own_keys (keyed E (Draw.generated d) (accepted_prefix fs)) →
   editable s' = keyed E (Draw.generated d) (accepted_prefix fs)).
Proof.
  intros Hd Ho _ s'. subst s'. unfold exec.
  rewrite (import_array_run E s d o fs Hd Ho). simpl.
  split; [|split; [|split; [|split]]].
  - intros Hall. by rewrite bool_decide_eq_true_2.
  - intros Hall. by rewrite bool_decide_eq_false_2.
  - unfold editable. simpl. intros g Hg.
    apply add_all_elem in Hg as [Hg|(f & n & Hf & ->)].
    { by apply elem_of_nil in Hg. }
    exists f. split; [done|].
    unfold same_content. by rewrite key_geometry, key_properties.
  - unfold editable. simpl. etrans; [apply add_all_length|]. done.
  - intros _ [Hkeys _]. unfold editable. simpl.
    assert (Hnd : NoDup (feat_id <$> keyed E (Draw.generated d) (accepted_prefix fs))).
    { apply (NoDup_fmap_1 id_key). by rewrite <-list_fmap_compose. }
    unfold Draw.getAll, Draw.deleteAll.
    rewrite (add_all_fresh E (accepted_prefix fs) [] (Draw.generated d));
      [done | apply accepted_prefix_supported | done].
Qed.

Lemma import_stops_at_rejection_witness :
  let fs := [named_point; unnamed_without_geometry; unnamed_point] in
  let s' := exec (handleImport frozen_env (Some (JsonParsed (JVObj (FeatureCollection fs)))))
                 planner_drawn in
  accepted_prefix fs = [named_point] ∧
  editable s' = [named_point] ∧
  status s' = "Error: Invalid GeoJSON file".
Proof.
  split; [reflexivity|].
  assert (Htidy : Forall tidy [named_point; unnamed_without_geometry; unnamed_point])
    by (repeat (constructor; [show_tidy|]); constructor).
  destruct (import_stops_at_rejection frozen_env planner_drawn
              {| Draw.features := [named_point]; Draw.generated := 0 |}
              (FeatureCollection [named_point; unnamed_without_geometry; unnamed_point])
              [named_point; unnamed_without_geometry; unnamed_point] eq_refl eq_refl Htidy)
    as (_ & Hbad & _ & _ & Hexact).
  split.
  - apply Hexact.
    + repeat (constructor; [show_plain|]). constructor.
    + split; compute_done.
  - apply Hbad. intros Hall. apply Forall_cons in Hall as [_ Hall].
    apply Forall_cons in Hall as [Hno _]. discriminate Hno.
Defined.

End planner_more.

Section planner_runs.
Import PlannerApp.

Lemma state_eta (s : State) : set_status (status s) (set_drawRef (drawRef s) s) = s.
Proof. by destruct s. Qed.

(** Whatever file is chosen, the import ends normally and differs from the
    page it started on in the widget and the status at most. *)
Lemma import_any_run (E : Env) (file : option JsonOutcome) (s : State) :
  ∃ st' dr',
    handleImport E file s = (Ok tt, set_status st' (set_drawRef dr' s)) ∧
    (is_Some (drawRef s) → is_Some dr').
Proof.
  assert (Hsame : (Ok tt, s) = (Ok tt, set_status (status s) (set_drawRef (drawRef s) s)))
    by (by rewrite state_eta).
  assert (Herr : (Ok tt, set_status "Error: Invalid GeoJSON file" s)
                 = (Ok tt, set_status "Error: Invalid GeoJSON file"
                             (set_drawRef (drawRef s) s)))
    by (by destruct s).
  destruct file as [[|[|o]]|].
  - exists "Error: Invalid GeoJSON file", (drawRef s). split; [exact Herr|done].
  - destruct (drawRef s) as [d|] eqn:Hd.
    + exists "Error: Invalid GeoJSON file", (Some d). split; [|done]. rewrite <-Herr.
      unfold handleImport, try_catch, bind, JSON_parse, gets, ret, get_features, throw.
      by rewrite Hd.
    + exists (status s), None. split; [|done]. rewrite <-Hsame.
      unfold handleImport, try_catch, bind, JSON_parse, gets, ret. by rewrite Hd.
  - destruct (drawRef s) as [d|] eqn:Hd.
    + destruct (obj_features o) as [fs|] eqn:Ho.
      * rewrite (import_array_run E s d o fs Hd Ho). eexists _, _. split; [done|]. by eexists.
      * exists (status s), (Some d). split; [|done]. rewrite <-Hsame.
        unfold handleImport, try_catch, bind, JSON_parse, gets, ret, get_features.
        by rewrite Hd, Ho.
    + exists (status s), None. split; [|done]. rewrite <-Hsame.
      unfold handleImport, try_catch, bind, JSON_parse, gets, ret. by rewrite Hd.
  - exists (status s), (drawRef s). split; [|done]. by rewrite <-Hsame.
Qed.

(** X17. Whatever file is chosen, [handleImport] lets no exception escape,
    sends and offers nothing, and leaves the scenarios, the current
    scenario, the layers, the active tool and a held analysis result as they
    were: an analysis computed for the previous plan stays on display after
    an import. *)
Theorem import_keeps_the_rest (E : Env) (file : option JsonOutcome) (s : State) :
  fst (handleImport E file s) = Ok tt ∧
  trace (exec (handleImport E file) s) = trace s ∧
  scenarios (exec (handleImport E file) s) = scenarios s ∧
  currentScenario (exec (handleImport E file) s) = currentScenario s ∧
  analysisData (exec (handleImport E file) s) = analysisData s ∧
  isAnalyzing (exec (handleImport E file) s) = isAnalyzing s ∧
  layers (exec (handleImport E file) s) = layers s ∧
  activeTool (exec (handleImport E file) s) = activeTool s.
Proof.
  destruct (import_any_run E file s) as (st' & dr' & Hrun & _).
  unfold exec. rewrite Hrun. done.
Qed.

(** The two halves of an analysis make up [analyzeNow]. *)
Lemma analyze_in_two_halves (s : State) (d : Draw.Store) :
  drawRef s = Some d →
  Draw.getAll d ≠ [] →
  exec analyzeNow s = exec analysis_ends (exec analysis_begins s).
Proof.
  intros Hd Hne.
  unfold exec, analyzeNow, analysis_begins, analysis_ends, bind, gets. rewrite Hd.
  rewrite bool_decide_eq_false_2 by (by destruct (Draw.getAll d)).
  done.
Qed.

(** X18. In every state the planner page can reach, however mounting
    ended and through any sequence of map reports, edits, clicks, imports,
    analyses (with whatever happens while one waits) and scenario changes:
    the scenario list has no name twice and begins with the two scenarios
    the page starts with, the current scenario is one of the list, the four
    layers are there under their keys, the active tool is one of the four
    buttons, and an analysis on display is the fixed one. *)
Theorem planner_invariants (E : Env) (s : State) :
  planner_reachable E s →
  NoDup (scenarios s) ∧
  currentScenario s ∈ scenarios s ∧
  ["Master Plan"; "Sustainable Vision"] `prefix_of` scenarios s ∧
  (layers s).*1 = ["population"; "floodRisk"; "vegetation"; "heatRisk"] ∧
  activeTool s ∈ tools ∧
  (analysisData s = None ∨ analysisData s = Some mockAnalysisData).
Proof.
  induction 1 as [s (st & dr & ->)|s ev Hreach IH Hoff].
  - simpl. split; [compute_done|]. split; [compute_done|]. split; [done|].
    split; [done|]. split; [compute_done|]. by left.
  - destruct IH as (Hnd & Hcur & Hpre & Hlay & Htool & Han).
    destruct ev as [ | |d'|d'|d'|d'|tool after|layerId| |file| | | |answer|scenario| ];
      simpl in Hoff.
    + unfold exec; simpl. done.
    + unfold exec; simpl. done.
    + unfold exec; simpl. done.
    + unfold exec; simpl. done.
    + unfold exec; simpl. done.
    + unfold exec; simpl. done.
    + unfold exec, planner_handle, handleToolClick, bind, gets, modify. simpl.
      destruct (drawRef s) as [d|]; simpl; [|done].
      destruct (bool_decide (tool = "select")); simpl; [done|].
      unfold ret, throw.
      destruct (bool_decide ("draw_" +:+ tool ∈ draw_modes)); simpl; done.
    + destruct (get_layer_elem _ _ Hoff) as [l Hl].
      unfold exec, planner_handle, toggleLayer, bind, gets. rewrite Hl. simpl.
      by rewrite (put_layer_keys _ _ _ _ Hl).
    + unfold exec, planner_handle, handleExport, bind, gets.
      destruct (drawRef s) as [d|]; simpl; [|done].
      destruct (bool_decide (length (Draw.getAll d) = 0)); simpl; done.
    + destruct (import_any_run E file s) as (st' & dr' & Hrun & _).
      unfold exec, planner_handle. rewrite Hrun. simpl. done.
    + unfold exec, planner_handle, analyzeNow, bind, gets.
      destruct (drawRef s) as [d|]; simpl; [|done].
      destruct (bool_decide (length (Draw.getAll d) = 0)); simpl; [done|].
      repeat split; try done. by right.
    + unfold exec, planner_handle, analysis_begins, bind, gets.
      destruct (drawRef s) as [d|]; simpl; [|done].
      destruct (bool_decide (length (Draw.getAll d) = 0)); simpl; done.
    + unfold exec; simpl. repeat split; try done. by right.
    + unfold exec, planner_handle, createNewScenario, bind, gets.
      destruct answer as [name|]; [|done].
      destruct (bool_decide (name = EmptyString)); simpl; [done|].
      destruct (bool_decide (name ∈ scenarios s)) eqn:Hin; simpl; [done|].
      apply bool_decide_eq_false_1 in Hin.
      assert (Hgoal : NoDup (scenarios s ++ [name]) ∧
                      name ∈ scenarios s ++ [name] ∧
                      ["Master Plan"; "Sustainable Vision"] `prefix_of` scenarios s ++ [name]).
      { split; [|split].
        - apply NoDup_app. repeat split; [done| |apply NoDup_singleton].
          intros x Hx Hx'. apply list_elem_of_singleton in Hx' as ->. done.
        - apply elem_of_app. right. by apply list_elem_of_singleton.
        - by apply prefix_app_r. }
      destruct Hgoal as (H1 & H2 & H3).
      destruct (drawRef s) as [d|]; simpl; repeat split; try done; by left.
    + unfold exec, planner_handle, switchScenario, bind, gets.
      destruct (drawRef s) as [d|]; simpl; repeat split; try done; by left.
    + unfold exec, planner_handle, clearMap, bind, gets.
      destruct (drawRef s) as [d|]; simpl; done.
Qed.

Lemma planner_invariants_witness :
  let s := exec (planner_handle frozen_env (ScenarioPrompted (Some "Flood Plan")))
             (exec (planner_handle frozen_env AnalyzeClicked)
                (exec (planner_handle frozen_env (ToolClicked "polygon" Draw.empty))
                   mount_failed)) in
  scenarios s = ["Master Plan"; "Sustainable Vision"; "Flood Plan"] ∧
  status s = "New scenario: Flood Plan" ∧
  NoDup (scenarios s) ∧
  currentScenario s ∈ scenarios s ∧
  ["Master Plan"; "Sustainable Vision"] `prefix_of` scenarios s ∧
  (layers s).*1 = ["population"; "floodRisk"; "vegetation"; "heatRisk"] ∧
  activeTool s ∈ tools ∧
  (analysisData s = None ∨ analysisData s = Some mockAnalysisData).
Proof.
  split; [reflexivity|]. split; [reflexivity|].
  apply (planner_invariants frozen_env).
  apply reach_event; [|exact I].
  apply reach_event; [|exact I].
  apply reach_event; [apply reach_start; by eexists _, _|].
  simpl. compute_done.
Defined.

End planner_runs.
